(** * asimovrpc: a JSON-RPC client for an Ethereum-like node

    A shallow embedding of the Go package [asimovrpc] (the transport
    [Call], the typed wrapper [call], and the method facade built on them)
    together with the part of [encoding/json] the package relies on.

    Bytes and Go strings are [string] (a list of 8-bit [ascii]); Go's
    [int] and [big.Int] are [Z], with the 64-bit range written out where
    the code can observe it; a Go error is a value of [error]; a pointer
    that may be nil is an [option]. *)

From Stdlib Require Import ZArith List String Ascii Bool Lia DecimalString.
Import ListNotations.

#[local] Open Scope string_scope.
#[local] Open Scope Z_scope.

(** ** Errors *)

(** [type AsimovError struct { Code int; Message string }] *)
Record AsimovError : Type := mkAsimovError {
  Code : Z;
  Message : string
}.

(** The Go [error] values that can leave the package, by origin. *)
Inductive error : Type :=
| RemoteError (e : AsimovError)
| MarshalError (msg : string)
| TransportError (msg : string)
| SyntaxError (msg : string)
| UnmarshalTypeError (msg : string)
| FormatError (msg : string)
| RangeError (msg : string).

(** A fallible computation: a value, or the error that replaced it. *)
Inductive result (A : Type) : Type :=
| Ok (a : A)
| Err (e : error).
Arguments Ok {A} a.
Arguments Err {A} e.

(** ** Bytes *)

Module Bytes.

Definition byte (c : ascii) : Z := Z.of_N (N_of_ascii c).
Definition chr (b : Z) : ascii := ascii_of_N (Z.to_N b).

(** The double quote, byte 34. *)
Definition dquote : ascii := "034"%char.

(** Single quotes stand for double quotes in the JSON texts written in
    this file. *)
Fixpoint js (s : string) : string :=
  match s with
  | EmptyString => EmptyString
  | String c rest => String (if (c =? "'")%char then dquote else c) (js rest)
  end.

Fixpoint take (n : nat) (s : string) : string :=
  match n, s with
  | S n', String c rest => String c (take n' rest)
  | _, _ => EmptyString
  end.

(** The part of [s] in front of its suffix [rest]. *)
Definition consumed (s rest : string) : string :=
  take (String.length s - String.length rest) s.

Definition isEmpty (s : string) : bool :=
  match s with EmptyString => true | _ => false end.

(** [bytes.Equal] *)
Definition bytesEqual (a b : string) : bool := String.eqb a b.

(** [utf8.EncodeRune] for a rune that is a Unicode scalar value. *)
Definition encodeRune (r : Z) : string :=
  if r <? 128 then String (chr r) EmptyString
  else if r <? 2048 then
    String (chr (192 + r / 64)) (String (chr (128 + r mod 64)) EmptyString)
  else if r <? 65536 then
    String (chr (224 + r / 4096))
      (String (chr (128 + (r / 64) mod 64))
         (String (chr (128 + r mod 64)) EmptyString))
  else
    String (chr (240 + r / 262144))
      (String (chr (128 + (r / 4096) mod 64))
         (String (chr (128 + (r / 64) mod 64))
            (String (chr (128 + r mod 64)) EmptyString))).

(** U+FFFD, the rune Go substitutes for ill-formed input. *)
Definition replacementChar : string := encodeRune 65533.

Definition inRange (lo hi : Z) (c : ascii) : bool :=
  (lo <=? byte c) && (byte c <=? hi).

(** Length of the well-formed UTF-8 sequence [s] starts with (1 to 4), or 0
    when it starts with none: the table of [utf8.DecodeRune]. *)
Definition utf8Len (s : string) : nat :=
  match s with
  | EmptyString => 0%nat
  | String c0 r0 =>
      let b0 := byte c0 in
      if b0 <? 128 then 1%nat
      else if inRange 194 223 c0 then
        match r0 with
        | String c1 _ => if inRange 128 191 c1 then 2%nat else 0%nat
        | _ => 0%nat
        end
      else if inRange 224 239 c0 then
        match r0 with
        | String c1 (String c2 _) =>
            let lo := if b0 =? 224 then 160 else 128 in
            let hi := if b0 =? 237 then 159 else 191 in
            if inRange lo hi c1 && inRange 128 191 c2 then 3%nat else 0%nat
        | _ => 0%nat
        end
      else if inRange 240 244 c0 then
        match r0 with
        | String c1 (String c2 (String c3 _)) =>
            let lo := if b0 =? 240 then 144 else 128 in
            let hi := if b0 =? 244 then 143 else 191 in
            if inRange lo hi c1 && inRange 128 191 c2 && inRange 128 191 c3
            then 4%nat else 0%nat
        | _ => 0%nat
        end
      else 0%nat
  end.

End Bytes.

(** ** Numeric/Hex codec *)

Module Hex.
Import Bytes.

(** Largest value of Go's [int] on a 64-bit platform. *)
Definition maxInt : Z := 9223372036854775807.

(** The lowercase digit of a value below sixteen. *)
Definition hexDigit (d : Z) : ascii :=
  if d <? 10 then chr (48 + d) else chr (87 + d).

(** The value of a hexadecimal digit of either case. *)
Definition hexVal (c : ascii) : option Z :=
  if inRange 48 57 c then Some (byte c - 48)
  else if inRange 97 102 c then Some (byte c - 87)
  else if inRange 65 70 c then Some (byte c - 55)
  else None.

(** Hexadecimal digits of [n], most significant first, in front of [acc]. *)
Fixpoint toHex (fuel : nat) (n : Z) (acc : string) : string :=
  match fuel with
  | O => acc
  | S fuel' =>
      let acc' := String (hexDigit (n mod 16)) acc in
      if n / 16 =? 0 then acc' else toHex fuel' (n / 16) acc'
  end.

(** One unit of fuel per hexadecimal digit is enough; a digit holds four
    bits, so the bit length is a generous bound. *)
Definition hexFuel (n : Z) : nat := S (Z.to_nat (Z.log2 n)).

Definition hexString (n : Z) : string := toHex (hexFuel n) n "".

Fixpoint fromHex (s : string) (acc : Z) : option Z :=
  match s with
  | EmptyString => Some acc
  | String c rest =>
      match hexVal c with
      | Some d => fromHex rest (16 * acc + d)
      | None => None
      end
  end.

(** Modelled from the spec: the helper [IntToHex] is not among the source
    files. Section 4.3: a bounded machine integer is written as a
    [0x]-prefixed lowercase hexadecimal string without leading zero digits,
    zero being [0x0]. A negative argument is outside the codec's valid
    domain; it is written as its magnitude after a minus sign. *)
Definition IntToHex (i : Z) : string :=
  if i <? 0 then "0x-" ++ hexString (- i) else "0x" ++ hexString i.

(** Modelled from the spec: the helper [BigToHex] is not among the source
    files. Section 4.3: an arbitrary-precision integer uses the same
    format. *)
Definition BigToHex (i : Z) : string := IntToHex i.

(** The digits after the [0x] prefix, or a [FormatError] when the prefix is
    missing, no digit follows it, or a character is not hexadecimal. *)
Definition hexDigitsValue (value : string) : result Z :=
  match value with
  | String "0" (String "x" EmptyString) =>
      Err (FormatError "no hexadecimal digit")
  | String "0" (String "x" digits) =>
      match fromHex digits 0 with
      | Some v => Ok v
      | None => Err (FormatError "invalid hexadecimal digit")
      end
  | _ => Err (FormatError "missing 0x prefix")
  end.

(** Modelled from the spec: the helper [ParseInt] is not among the source
    files. Section 4.3: decoding fails with a [FormatError] when the input
    lacks the [0x] prefix or contains a character that is not hexadecimal;
    the result is a bounded machine integer, so a value above [maxInt] is
    refused as well. *)
Definition ParseInt (value : string) : result Z :=
  match hexDigitsValue value with
  | Ok v => if v <=? maxInt then Ok v else Err (RangeError "value out of range")
  | Err e => Err e
  end.

(** Modelled from the spec: the helper [ParseBigInt] is not among the
    source files. Section 4.3: the same format, without a bound. *)
Definition ParseBigInt (value : string) : result Z := hexDigitsValue value.

(** What the spec's format asks of an encoded string: lowercase
    hexadecimal digits only, at least one, and no leading zero unless the
    string is the single digit zero. *)
Definition isLowerHex (c : ascii) : bool :=
  inRange 48 57 c || inRange 97 102 c.

Fixpoint allLowerHex (s : string) : bool :=
  match s with
  | EmptyString => true
  | String c rest => isLowerHex c && allLowerHex rest
  end.

Definition canonicalDigits (s : string) : bool :=
  match s with
  | EmptyString => false
  | String c rest =>
      if (c =? "0")%char
      then match rest with EmptyString => true | _ => false end
      else allLowerHex s
  end.

Definition canonicalHex (s : string) : bool :=
  match s with
  | String "0" (String "x" digits) => canonicalDigits digits
  | _ => false
  end.

(** Lowercase hexadecimal of each byte, two digits per byte: [%x] of a
    byte slice. *)
Fixpoint hexBytes (data : string) : string :=
  match data with
  | EmptyString => EmptyString
  | String c rest =>
      String (hexDigit (byte c / 16))
        (String (hexDigit (byte c mod 16)) (hexBytes rest))
  end.

End Hex.

(** ** JSON texts: the part of [encoding/json] the package relies on *)

Module Json.
Import Bytes.

(** *** Scanning *)

Definition isSpace (c : ascii) : bool :=
  (byte c =? 32) || (byte c =? 9) || (byte c =? 10) || (byte c =? 13).

Fixpoint skipSpace (s : string) : string :=
  match s with
  | String c rest => if isSpace c then skipSpace rest else s
  | EmptyString => EmptyString
  end.

Definition isDigit (c : ascii) : bool := inRange 48 57 c.

(** The leading decimal digits of [s] and what follows them. *)
Fixpoint spanDigits (s : string) : string * string :=
  match s with
  | String c rest =>
      if isDigit c
      then let (ds, r) := spanDigits rest in (String c ds, r)
      else (EmptyString, s)
  | EmptyString => (EmptyString, EmptyString)
  end.

(** [s] without the prefix [p], when it starts with it. *)
Fixpoint stripPrefix (p s : string) : option string :=
  match p, s with
  | EmptyString, _ => Some s
  | String a p', String b s' => if (a =? b)%char then stripPrefix p' s' else None
  | String _ _, EmptyString => None
  end.

(** A number literal at the head of [s]: an optional minus sign, an integer
    part without leading zero, an optional fraction, an optional
    exponent. The literal and what follows it. *)
Definition scanNumber (s : string) : option (string * string) :=
  let (sign, s1) :=
    match s with
    | String c r => if (c =? "-")%char then ("-", r) else (EmptyString, s)
    | EmptyString => (EmptyString, s)
    end in
  match s1 with
  | String c r =>
      if isDigit c then
        let (int, s2) :=
          if (c =? "0")%char then (String c EmptyString, r)
          else let (ds, r') := spanDigits r in (String c ds, r') in
        let frac :=
          match s2 with
          | String d r2 =>
              if (d =? ".")%char then
                let (ds, r3) := spanDigits r2 in
                if isEmpty ds then None else Some (String d ds, r3)
              else Some (EmptyString, s2)
          | EmptyString => Some (EmptyString, s2)
          end in
        match frac with
        | None => None
        | Some (fr, s3) =>
            let exp :=
              match s3 with
              | String e r3 =>
                  if (e =? "e")%char || (e =? "E")%char then
                    let (sg, r4) :=
                      match r3 with
                      | String g r' =>
                          if (g =? "+")%char || (g =? "-")%char
                          then (String g EmptyString, r')
                          else (EmptyString, r3)
                      | EmptyString => (EmptyString, r3)
                      end in
                    let (ds, r5) := spanDigits r4 in
                    if isEmpty ds then None else Some (String e (sg ++ ds), r5)
                  else Some (EmptyString, s3)
              | EmptyString => Some (EmptyString, s3)
              end in
            match exp with
            | None => None
            | Some (ex, s4) => Some (sign ++ int ++ fr ++ ex, s4)
            end
        end
      else None
  | EmptyString => None
  end.

(** The value of four hexadecimal digits at the head of [s]. *)
Definition hex4 (s : string) : option Z :=
  match s with
  | String a (String b (String c (String d _))) =>
      match Hex.hexVal a, Hex.hexVal b, Hex.hexVal c, Hex.hexVal d with
      | Some x, Some y, Some z, Some w => Some (((x * 16 + y) * 16 + z) * 16 + w)
      | _, _, _, _ => None
      end
  | _ => None
  end.

(** [getu4]: the code unit of a [\uXXXX] escape at the head of [s]. *)
Definition getu4 (s : string) : option Z :=
  match s with
  | String b (String u rest) =>
      if (b =? "\")%char && (u =? "u")%char then hex4 rest else None
  | _ => None
  end.

Definition simpleEscape (c : ascii) : option ascii :=
  if (c =? dquote)%char then Some dquote
  else if (c =? "\")%char then Some "\"%char
  else if (c =? "/")%char then Some "/"%char
  else if (c =? "b")%char then Some (chr 8)
  else if (c =? "f")%char then Some (chr 12)
  else if (c =? "n")%char then Some (chr 10)
  else if (c =? "r")%char then Some (chr 13)
  else if (c =? "t")%char then Some (chr 9)
  else None.

(** What a [\u] escape at the head of [s] (which starts at the [u])
    denotes, and how many bytes it takes from the [u] on: a surrogate is
    combined with the low surrogate escape that follows it, or replaced by
    U+FFFD. *)
Definition unicodeEscape (s : string) : option (string * nat) :=
  match s with
  | String _ digits =>
      match hex4 digits with
      | None => None
      | Some rr =>
          if (55296 <=? rr) && (rr <? 57344) then
            match getu4 (take 6 (match digits with
                                 | String _ (String _ (String _ (String _ r))) => r
                                 | _ => EmptyString
                                 end)) with
            | Some rr1 =>
                if (rr <? 56320) && (56320 <=? rr1) && (rr1 <? 57344)
                then Some (encodeRune ((rr - 55296) * 1024 + (rr1 - 56320) + 65536), 11%nat)
                else Some (replacementChar, 5%nat)
            | None => Some (replacementChar, 5%nat)
            end
          else Some (encodeRune rr, 5%nat)
      end
  | EmptyString => None
  end.

Definition emit (out : string) (k : option (string * string)) : option (string * string) :=
  match k with
  | Some (s, rest) => Some (out ++ s, rest)
  | None => None
  end.

(** The contents of a string literal whose opening quote has been read,
    unquoted as [unquote] does, and what follows its closing quote.
    [skip] counts the bytes still to pass over of an escape or of a
    multi-byte sequence already written out. [None]: not a string
    literal. *)
Fixpoint unquoteFrom (skip : nat) (s : string) : option (string * string) :=
  match s with
  | EmptyString => None
  | String c rest =>
      match skip with
      | S skip' => unquoteFrom skip' rest
      | O =>
          if (c =? dquote)%char then Some (EmptyString, rest)
          else if (c =? "\")%char then
            match rest with
            | EmptyString => None
            | String e _ =>
                if (e =? "u")%char then
                  match unicodeEscape rest with
                  | Some (out, n) => emit out (unquoteFrom n rest)
                  | None => None
                  end
                else
                  match simpleEscape e with
                  | Some d => emit (String d EmptyString) (unquoteFrom 1 rest)
                  | None => None
                  end
            end
          else if byte c <? 32 then None
          else if byte c <? 128 then emit (String c EmptyString) (unquoteFrom 0 rest)
          else
            match utf8Len s with
            | O => emit replacementChar (unquoteFrom 0 rest)
            | S n => emit (take (S n) s) (unquoteFrom n rest)
            end
      end
  end.

Definition scanString (s : string) : option (string * string) := unquoteFrom 0 s.

(** *** Values *)

(** A parsed JSON value. A number keeps its literal, a string is unquoted,
    and each member of an object keeps the text of its value next to the
    value, for a target that stores it undecoded. *)
#[local] Unset Elimination Schemes.
Inductive json : Type :=
| JNull
| JBool (b : bool)
| JNumber (literal : string)
| JString (s : string)
| JArray (elems : list json)
| JObject (members : list (string * (string * json))).
#[local] Set Elimination Schemes.

(** [maxNestingDepth] of the scanner. *)
Definition maxNestingDepth : Z := 10000.

(** A recursive reader: the value, or the values or members, at the head
    of a text at a given depth of nesting, and what follows. *)
Definition reader (A : Type) : Type := Z -> string -> option (A * string).

(** One value at the head of [s], which does not start with white space,
    given readers for what an array and an object enclose. *)
Definition valueStep (elements : reader (list json))
    (members : reader (list (string * (string * json)))) : reader json :=
  fun depth s =>
    match s with
    | EmptyString => None
    | String c rest =>
        if (c =? "{")%char then
          if maxNestingDepth <? depth + 1 then None else
          match skipSpace rest with
          | EmptyString => None
          | String c' rest' =>
              if (c' =? "}")%char then Some (JObject [], rest')
              else
                match members (depth + 1) (skipSpace rest) with
                | Some (ms, r) => Some (JObject ms, r)
                | None => None
                end
          end
        else if (c =? "[")%char then
          if maxNestingDepth <? depth + 1 then None else
          match skipSpace rest with
          | EmptyString => None
          | String c' rest' =>
              if (c' =? "]")%char then Some (JArray [], rest')
              else
                match elements (depth + 1) (skipSpace rest) with
                | Some (vs, r) => Some (JArray vs, r)
                | None => None
                end
          end
        else if (c =? dquote)%char then
          match scanString rest with
          | Some (str, r) => Some (JString str, r)
          | None => None
          end
        else if (c =? "t")%char then
          option_map (fun r => (JBool true, r)) (stripPrefix "rue" rest)
        else if (c =? "f")%char then
          option_map (fun r => (JBool false, r)) (stripPrefix "alse" rest)
        else if (c =? "n")%char then
          option_map (fun r => (JNull, r)) (stripPrefix "ull" rest)
        else
          match scanNumber s with
          | Some (lit, r) => Some (JNumber lit, r)
          | None => None
          end
    end.

(** The elements of an array from the first one on, up to the closing
    bracket. *)
Definition elementsStep (value : reader json) (elements : reader (list json))
  : reader (list json) :=
  fun depth s =>
    match value depth s with
    | None => None
    | Some (v, r) =>
        match skipSpace r with
        | EmptyString => None
        | String c r' =>
            if (c =? ",")%char then
              match elements depth (skipSpace r') with
              | Some (vs, r'') => Some (v :: vs, r'')
              | None => None
              end
            else if (c =? "]")%char then Some ([v], r')
            else None
        end
    end.

(** The members of an object from the first key on, up to the closing
    brace. Each value is kept with its text. *)
Definition membersStep (value : reader json)
    (members : reader (list (string * (string * json))))
  : reader (list (string * (string * json))) :=
  fun depth s =>
    match s with
    | EmptyString => None
    | String q afterQuote =>
        if negb (q =? dquote)%char then None else
        match scanString afterQuote with
        | None => None
        | Some (key, r0) =>
            match skipSpace r0 with
            | EmptyString => None
            | String colon r1 =>
                if negb (colon =? ":")%char then None else
                match value depth (skipSpace r1) with
                | None => None
                | Some (v, r2) =>
                    let member := (key, (consumed (skipSpace r1) r2, v)) in
                    match skipSpace r2 with
                    | EmptyString => None
                    | String c r3 =>
                        if (c =? ",")%char then
                          match members depth (skipSpace r3) with
                          | Some (ms, r4) => Some (member :: ms, r4)
                          | None => None
                          end
                        else if (c =? "}")%char then Some ([member], r3)
                        else None
                    end
                end
            end
        end
    end.

(** The three readers, each call spending one unit of fuel. *)
Fixpoint parseValue (fuel : nat) (depth : Z) (s : string) {struct fuel}
  : option (json * string) :=
  match fuel with
  | O => None
  | S fuel' =>
      valueStep (fun d t => parseElements fuel' d t)
        (fun d t => parseMembers fuel' d t) depth s
  end

with parseElements (fuel : nat) (depth : Z) (s : string) {struct fuel}
  : option (list json * string) :=
  match fuel with
  | O => None
  | S fuel' =>
      elementsStep (fun d t => parseValue fuel' d t)
        (fun d t => parseElements fuel' d t) depth s
  end

with parseMembers (fuel : nat) (depth : Z) (s : string) {struct fuel}
  : option (list (string * (string * json)) * string) :=
  match fuel with
  | O => None
  | S fuel' =>
      membersStep (fun d t => parseValue fuel' d t)
        (fun d t => parseMembers fuel' d t) depth s
  end.

(** A value that takes [n] bytes is read with less than [2 * n] units of
    fuel, so twice the length of the text is enough. *)
Definition parseFuel (s : string) : nat := 2 * String.length s + 2.

(** The value a whole text denotes: [checkValid] followed by the decoder's
    reading. White space may surround the value; nothing else may. *)
Definition parse (data : string) : result json :=
  let s := skipSpace data in
  match s with
  | EmptyString => Err (SyntaxError "unexpected end of JSON input")
  | _ =>
      match parseValue (parseFuel s) 0 s with
      | None => Err (SyntaxError "invalid JSON")
      | Some (v, rest) =>
          if isEmpty (skipSpace rest) then Ok v
          else Err (SyntaxError "invalid character after top-level value")
      end
  end.

(** *** Decoding into Go values: [json.Unmarshal] *)

(** A Go slice: the nil slice is not the empty one. *)
Inductive slice (A : Type) : Type :=
| NilSlice
| Slice (elems : list A).
Arguments NilSlice {A}.
Arguments Slice {A} elems.

(** The slice a variadic parameter receives: nil when no argument is
    given. *)
Definition variadic {A : Type} (args : list A) : slice A :=
  match args with
  | [] => NilSlice
  | _ => Slice args
  end.

(** The [Value] of an [UnmarshalTypeError]: the kind of the JSON value
    that did not fit the target. *)
Definition kindName (v : json) : string :=
  match v with
  | JNull => "null"
  | JBool _ => "bool"
  | JNumber _ => "number"
  | JString _ => "string"
  | JArray _ => "array"
  | JObject _ => "object"
  end.

(** The error for a value decoded on its own. For a value met inside a
    struct [encoding/json] names the field in the message as well; that
    part of the text is not modelled, and what is proved of such an error
    is its kind, not its text. *)
Definition typeError (v : json) (goType : string) : error :=
  UnmarshalTypeError
    ("json: cannot unmarshal " ++ kindName v ++ " into Go value of type " ++ goType).

(** A number that a numeric target cannot hold, being no integer or out
    of range, is reported with its literal. *)
Definition numberError (lit goType : string) : error :=
  UnmarshalTypeError
    ("json: cannot unmarshal number " ++ lit ++ " into Go value of type " ++ goType).

(** A decoder stores a JSON value into a target that already holds a
    value: it returns what the target holds afterwards and the error
    [Unmarshal] reports. A mismatch leaves its target as it was and
    decoding goes on; the first error is the one reported. *)
Definition decoder (A : Type) : Type := json -> A -> A * option error.

Definition firstError (e1 e2 : option error) : option error :=
  match e1 with
  | Some _ => e1
  | None => e2
  end.

Definition decodeString : decoder string :=
  fun v cur =>
    match v with
    | JString s => (s, None)
    | JNull => (cur, None)
    | _ => (cur, Some (typeError v "string"))
    end.

Definition decodeBool : decoder bool :=
  fun v cur =>
    match v with
    | JBool b => (b, None)
    | JNull => (cur, None)
    | _ => (cur, Some (typeError v "bool"))
    end.

Fixpoint digitsValue (s : string) (acc : Z) : option Z :=
  match s with
  | EmptyString => Some acc
  | String c rest =>
      if isDigit c then digitsValue rest (10 * acc + (byte c - 48)) else None
  end.

(** The integer a number literal denotes, when it has neither fraction nor
    exponent. *)
Definition integerLiteral (lit : string) : option Z :=
  match lit with
  | String c rest =>
      if (c =? "-")%char then option_map Z.opp (digitsValue rest 0)
      else digitsValue lit 0
  | EmptyString => None
  end.

(** A Go [int]: 64 bits. *)
Definition decodeInt : decoder Z :=
  fun v cur =>
    match v with
    | JNumber lit =>
        match integerLiteral lit with
        | Some i =>
            if (- Hex.maxInt - 1 <=? i) && (i <=? Hex.maxInt) then (i, None)
            else (cur, Some (numberError lit "int"))
        | None => (cur, Some (numberError lit "int"))
        end
    | JNull => (cur, None)
    | _ => (cur, Some (typeError v "int"))
    end.

(** Elements are decoded in order, each into a fresh [zero]. *)
Fixpoint decodeElements {A : Type} (zero : A) (dec : decoder A) (vs : list json)
  : list A * option error :=
  match vs with
  | [] => ([], None)
  | v :: rest =>
      let (a, e) := dec v zero in
      let (l, e') := decodeElements zero dec rest in
      (a :: l, firstError e e')
  end.

(** A slice target that is empty when decoding starts: an array replaces
    it, [null] makes it nil. *)
Definition decodeSlice {A : Type} (goType : string) (zero : A) (dec : decoder A)
  : decoder (slice A) :=
  fun v cur =>
    match v with
    | JArray vs => let (l, e) := decodeElements zero dec vs in (Slice l, e)
    | JNull => (NilSlice, None)
    | _ => (cur, Some (typeError v goType))
    end.

(** A field of a struct target: its JSON name and how a member's value,
    given with its text, is stored into the struct. *)
Record field (T : Type) : Type := mkField {
  fieldName : string;
  store : string -> json -> T -> T * option error
}.
Arguments mkField {T} fieldName store.
Arguments fieldName {T} f.
Arguments store {T} f.

(** A field whose own decoder does not need the member's text. *)
Definition fieldOf {T A : Type} (name : string) (dec : decoder A)
    (get : T -> A) (set : A -> T -> T) : field T :=
  mkField name (fun _ v t => let (a, e) := dec v (get t) in (set a t, e)).

(** [foldName]: the case-insensitive form under which a member's key is
    looked up. Only two runes outside ASCII fold to an ASCII letter: the
    long s (bytes 197 191) and the Kelvin sign (bytes 226 132 170). *)
Fixpoint foldName (s : string) : string :=
  match s with
  | EmptyString => EmptyString
  | String c rest =>
      if inRange 97 122 c then String (chr (byte c - 32)) (foldName rest)
      else
        match rest with
        | String c1 rest1 =>
            if (byte c =? 197) && (byte c1 =? 191) then String "S" (foldName rest1)
            else
              match rest1 with
              | String c2 rest2 =>
                  if (byte c =? 226) && (byte c1 =? 132) && (byte c2 =? 170)
                  then String "K" (foldName rest2)
                  else String c (foldName rest)
              | EmptyString => String c (foldName rest)
              end
        | EmptyString => String c EmptyString
        end
  end.

(** The field a key names: the one with exactly that name, or else the
    first one whose name differs by case only. *)
Definition findField {T : Type} (key : string) (fields : list (field T))
  : option (field T) :=
  match find (fun f => String.eqb (fieldName f) key) fields with
  | Some f => Some f
  | None =>
      find (fun f => String.eqb (foldName (fieldName f)) (foldName key)) fields
  end.

(** Members are stored in the order of the text; an unknown key is
    skipped, a repeated key is stored again. *)
Fixpoint decodeMembers {T : Type} (fields : list (field T))
    (members : list (string * (string * json))) (t : T) : T * option error :=
  match members with
  | [] => (t, None)
  | (key, (text, v)) :: rest =>
      match findField key fields with
      | None => decodeMembers fields rest t
      | Some f =>
          let (t1, e1) := store f text v t in
          let (t2, e2) := decodeMembers fields rest t1 in
          (t2, firstError e1 e2)
      end
  end.

(** A struct target: an object fills its fields, [null] leaves it as it
    is. *)
Definition decodeStruct {T : Type} (goType : string) (fields : list (field T))
  : decoder T :=
  fun v cur =>
    match v with
    | JObject members => decodeMembers fields members cur
    | JNull => (cur, None)
    | _ => (cur, Some (typeError v goType))
    end.

(** A field that is a pointer to a struct: [null] makes it nil; any other
    value allocates the struct when the pointer is nil, then decodes into
    it. *)
Definition decodePointer {T : Type} (zero : T) (dec : decoder T)
  : decoder (option T) :=
  fun v cur =>
    match v with
    | JNull => (None, None)
    | _ =>
        let (t, e) := dec v (match cur with Some t => t | None => zero end) in
        (Some t, e)
    end.

(** [json.Unmarshal(data, &target)]: the text is checked as a whole before
    anything is stored. *)
Definition Unmarshal {A : Type} (dec : decoder A) (data : string) (target : A)
  : A * option error :=
  match parse data with
  | Err e => (target, Some e)
  | Ok v => dec v target
  end.

(** *** Encoding Go values: [json.Marshal] *)

(** A Go value [json.Marshal] accepts. The fields of a struct come in the
    order of its declaration under their JSON names. *)
#[local] Unset Elimination Schemes.
Inductive value : Type :=
| VNil
| VBool (b : bool)
| VInt (i : Z)
| VString (s : string)
| VSlice (elems : list value)
| VStruct (fields : list (string * value)).
#[local] Set Elimination Schemes.

Definition decimal (i : Z) : string := NilEmpty.string_of_int (Z.to_int i).

Definition hexDigitOf (b : Z) : string := String (Hex.hexDigit b) EmptyString.

(** A rune written as a backslash, the letter u and four hexadecimal
    digits. *)
Definition escapeRune (digits : string) : string :=
  String "\" (String "u" digits).

(** How the encoder writes one ASCII byte inside a string literal, with
    the escaping of HTML characters that [json.Marshal] applies. Control
    characters without a short form are written with [escapeRune]; so are
    backspace and form feed, as Go releases before 1.22 write them. *)
Definition quoteByte (c : ascii) : string :=
  if (c =? dquote)%char then String "\" (String dquote EmptyString)
  else if (c =? "\")%char then "\\"
  else if byte c =? 10 then "\n"
  else if byte c =? 13 then "\r"
  else if byte c =? 9 then "\t"
  else if (byte c <? 32) || (c =? "<")%char || (c =? ">")%char || (c =? "&")%char
  then escapeRune ("00" ++ hexDigitOf (byte c / 16) ++ hexDigitOf (byte c mod 16))
  else String c EmptyString.

(** U+2028 and U+2029 in UTF-8: bytes 226 128 168 and 226 128 169. *)
Definition lineSeparator (s : string) : option string :=
  match s with
  | String a (String b (String c _)) =>
      if (byte a =? 226) && (byte b =? 128) && (byte c =? 168) then Some (escapeRune "2028")
      else if (byte a =? 226) && (byte b =? 128) && (byte c =? 169) then Some (escapeRune "2029")
      else None
  | _ => None
  end.

Fixpoint quoteFrom (skip : nat) (s : string) : string :=
  match s with
  | EmptyString => EmptyString
  | String c rest =>
      match skip with
      | S skip' => quoteFrom skip' rest
      | O =>
          if byte c <? 128 then quoteByte c ++ quoteFrom 0 rest
          else
            match utf8Len s with
            | O => escapeRune "fffd" ++ quoteFrom 0 rest
            | S n =>
                match lineSeparator s with
                | Some esc => esc ++ quoteFrom n rest
                | None => take (S n) s ++ quoteFrom n rest
                end
            end
      end
  end.

(** Bytes the encoder copies as they are: printable ASCII other than the
    quote, the backslash and the three HTML characters. *)
Definition isPlain (c : ascii) : bool :=
  inRange 32 126 c
  && negb ((c =? dquote)%char || (c =? "\")%char || (c =? "<")%char
           || (c =? ">")%char || (c =? "&")%char).

Fixpoint allPlain (s : string) : bool :=
  match s with
  | EmptyString => true
  | String c rest => isPlain c && allPlain rest
  end.

(** A Go string as a JSON string literal. *)
Definition quote (s : string) : string :=
  String dquote (quoteFrom 0 s ++ String dquote EmptyString).

Fixpoint joinWith (sep : string) (parts : list string) : string :=
  match parts with
  | [] => EmptyString
  | [p] => p
  | p :: rest => p ++ sep ++ joinWith sep rest
  end.

Fixpoint marshalValue (v : value) : string :=
  match v with
  | VNil => "null"
  | VBool true => "true"
  | VBool false => "false"
  | VInt i => decimal i
  | VString s => quote s
  | VSlice elems => "[" ++ joinWith "," (map marshalValue elems) ++ "]"
  | VStruct fields =>
      "{" ++ joinWith ","
               (map (fun kv => quote (fst kv) ++ ":" ++ marshalValue (snd kv)) fields)
          ++ "}"
  end.

(** A value passed as [interface{}]: one the encoder accepts, or one it
    refuses (a channel, a function, a value whose own encoder fails). *)
Inductive param : Type :=
| Serializable (v : value)
| Unserializable (goType : string).

(** The values of the parameters, or the error of the first one the
    encoder refuses. *)
Fixpoint paramValues (ps : list param) : result (list value) :=
  match ps with
  | [] => Ok []
  | Serializable v :: rest =>
      match paramValues rest with
      | Ok vs => Ok (v :: vs)
      | Err e => Err e
      end
  | Unserializable goType :: _ =>
      Err (MarshalError ("json: unsupported type: " ++ goType))
  end.

(** A slice of [interface{}] as a value: the nil slice is written
    [null]. *)
Definition sliceValue (ps : slice param) : result value :=
  match ps with
  | NilSlice => Ok VNil
  | Slice l =>
      match paramValues l with
      | Ok vs => Ok (VSlice vs)
      | Err e => Err e
      end
  end.

End Json.

Import Bytes Json.

(** ** Envelopes *)

(** [type asimovResponse struct]. [Result] is a [json.RawMessage]: the
    text of the member, undecoded. A decoded one is never empty, so the
    empty string stands for the nil message. *)
Record asimovResponse : Type := mkResponse {
  ID : Z;
  JSONRPC : string;
  Result : string;
  Error : option AsimovError
}.

(** [type asimovRequest struct] *)
Record asimovRequest : Type := mkRequest {
  requestID : Z;
  requestJSONRPC : string;
  Method : string;
  Params : slice param
}.

Definition zeroAsimovError : AsimovError := mkAsimovError 0 "".

Definition zeroResponse : asimovResponse := mkResponse 0 "" "" None.

(** The fields of [AsimovError] under their [json] tags. *)
Definition errorFields : list (field AsimovError) :=
  [ fieldOf "code" decodeInt Code (fun c e => mkAsimovError c (Message e));
    fieldOf "message" decodeString Message (fun m e => mkAsimovError (Code e) m) ].

Definition decodeAsimovError : decoder AsimovError :=
  decodeStruct "asimovrpc.AsimovError" errorFields.

(** The fields of [asimovResponse] under their [json] tags. The raw
    message takes the text of its member, whatever the value, [null]
    included. *)
Definition responseFields : list (field asimovResponse) :=
  [ fieldOf "id" decodeInt ID
      (fun i r => mkResponse i (JSONRPC r) (Result r) (Error r));
    fieldOf "jsonrpc" decodeString JSONRPC
      (fun j r => mkResponse (ID r) j (Result r) (Error r));
    mkField "result"
      (fun text _ r => (mkResponse (ID r) (JSONRPC r) text (Error r), None));
    fieldOf "error" (decodePointer zeroAsimovError decodeAsimovError) Error
      (fun e r => mkResponse (ID r) (JSONRPC r) (Result r) e) ].

(** [resp := new(asimovResponse); json.Unmarshal(data, resp)] *)
Definition unmarshalResponse (data : string) : result asimovResponse :=
  match Unmarshal (decodeStruct "asimovrpc.asimovResponse" responseFields)
          data zeroResponse with
  | (resp, None) => Ok resp
  | (_, Some err) => Err err
  end.

(** [json.Marshal(request)] *)
Definition marshalRequest (request : asimovRequest) : result string :=
  match sliceValue (Params request) with
  | Err e => Err e
  | Ok params =>
      Ok (marshalValue
            (VStruct [ ("id", VInt (requestID request));
                       ("jsonrpc", VString (requestJSONRPC request));
                       ("method", VString (Method request));
                       ("params", params) ]))
  end.

(** ** The client and its surroundings *)

(** What [client.Post] is given. *)
Record post : Type := mkPost {
  postURL : string;
  contentType : string;
  postBody : string
}.

(** What can be seen of a call from outside the process. *)
Inductive event : Type :=
| Posted (p : post)
| BodyClosed.

(** [ioutil.ReadAll(response.Body)] *)
Inductive bodyRead : Type :=
| ReadAll (data : string)
| ReadFailed (msg : string).

(** What [client.Post] returns: an error, with or without a response next
    to it, or a response whose body is still to be read. A client that
    returns neither (on which [Call] would dereference a nil response) is
    not a value of this type. *)
Inductive postResult : Type :=
| PostFailed (response : bool) (msg : string)
| PostDone (body : bodyRead).

(** [type httpClient interface]: the answer may depend on everything the
    process has sent so far. *)
Record httpClient : Type := mkClient {
  Post : list event -> post -> postResult
}.

(** [type logger interface]: what printing a line adds to what has been
    printed. A logger returns: one that panics or blocks is not a value of
    this type. *)
Record logger : Type := mkLogger {
  Println : string -> list string -> list string
}.

(** [type AsimovRPC struct] *)
Record AsimovRPC : Type := mkRPC {
  url : string;
  client : httpClient;
  log : logger;
  Debug : bool
}.

Record world : Type := mkWorld {
  wire : list event;
  printed : list string
}.

Definition emitEvent (e : event) (w : world) : world :=
  mkWorld (wire w ++ [e]) (printed w).

Definition printLine (l : logger) (line : string) (w : world) : world :=
  mkWorld (wire w) (Println l line (printed w)).

(** A Go function that returns a value and an error and acts on the
    world. *)
Definition action (A : Type) : Type := world -> (A * option error) * world.

(** [WithHttpClient], [WithLogger], [WithDebug] *)
Definition WithHttpClient (c : httpClient) : AsimovRPC -> AsimovRPC :=
  fun rpc => mkRPC (url rpc) c (log rpc) (Debug rpc).

Definition WithLogger (l : logger) : AsimovRPC -> AsimovRPC :=
  fun rpc => mkRPC (url rpc) (client rpc) l (Debug rpc).

Definition WithDebug (enabled : bool) : AsimovRPC -> AsimovRPC :=
  fun rpc => mkRPC (url rpc) (client rpc) (log rpc) enabled.

Section New.

(** [http.DefaultClient] and the logger on standard error. *)
Variable DefaultClient : httpClient.
Variable stderrLogger : logger.

Definition New (url : string) (options : list (AsimovRPC -> AsimovRPC)) : AsimovRPC :=
  fold_left (fun rpc option => option rpc) options
    (mkRPC url DefaultClient stderrLogger false).

Definition NewAsimovRPC (url : string) (options : list (AsimovRPC -> AsimovRPC))
  : AsimovRPC := New url options.

End New.

Definition URL (rpc : AsimovRPC) : string := url rpc.

(** The line [Call] prints under [Debug]. *)
Definition debugLine (method body data : string) : string :=
  method ++ String (chr 10) ("Request: " ++ body ++ String (chr 10)
    ("Response: " ++ data ++ String (chr 10) EmptyString)).

(** [func (rpc *AsimovRPC) Call(method string, params ...interface{})
    (json.RawMessage, error)]. The deferred [Close] runs when the function
    returns, whatever it returns. *)
Definition Call (rpc : AsimovRPC) (method : string) (params : slice param)
  : action string :=
  fun w =>
    let request := mkRequest 1 "2.0" method params in
    match marshalRequest request with
    | Err err => ((EmptyString, Some err), w)
    | Ok body =>
        let p := mkPost (url rpc) "application/json" body in
        let response := Post (client rpc) (wire w) p in
        let w := emitEvent (Posted p) w in
        match response with
        | PostFailed false msg => ((EmptyString, Some (TransportError msg)), w)
        | PostFailed true msg =>
            ((EmptyString, Some (TransportError msg)), emitEvent BodyClosed w)
        | PostDone (ReadFailed msg) =>
            ((EmptyString, Some (TransportError msg)), emitEvent BodyClosed w)
        | PostDone (ReadAll data) =>
            let w := if Debug rpc
                     then printLine (log rpc) (debugLine method body data) w
                     else w in
            match unmarshalResponse data with
            | Err err => ((EmptyString, Some err), emitEvent BodyClosed w)
            | Ok resp =>
                match Error resp with
                | Some e => ((EmptyString, Some (RemoteError e)), emitEvent BodyClosed w)
                | None => ((Result resp, None), emitEvent BodyClosed w)
                end
            end
        end
    end.

(** [RawCall] *)
Definition RawCall (rpc : AsimovRPC) (method : string) (params : slice param)
  : action string := Call rpc method params.

(** [func (rpc *AsimovRPC) call(method string, target interface{},
    params ...interface{}) error]. The target is [None] for a nil
    interface and [Some v] for a pointer to a variable holding [v]; next
    to the error the model returns what the variable holds afterwards. *)
Definition call {A : Type} (dec : decoder A) (rpc : AsimovRPC) (method : string)
    (target : option A) (params : slice param) : action (option A) :=
  fun w =>
    let '((result, err), w) := Call rpc method params w in
    match err with
    | Some e => ((target, Some e), w)
    | None =>
        match target with
        | None => ((None, None), w)
        | Some v => let (v', e) := Unmarshal dec result v in ((Some v', e), w)
        end
    end.

(** [rpc.call(method, &v, params...)] for a local variable [v]: the
    variable afterwards, and the error. *)
Definition callVar {A : Type} (dec : decoder A) (rpc : AsimovRPC) (method : string)
    (v : A) (params : slice param) : action A :=
  fun w =>
    let '((t, err), w) := call dec rpc method (Some v) params w in
    ((match t with Some v' => v' | None => v end, err), w).

(** A Go pair [(value, error)] from a fallible computation: the zero value
    accompanies an error. *)
Definition goPair {A : Type} (zero : A) (r : result A) : A * option error :=
  match r with
  | Ok a => (a, None)
  | Err e => (zero, Some e)
  end.

(** ** Domain records *)

(** Modelled from the spec: the types of the decoded records ([Syncing],
    [Transaction], [Log], [TransactionReceipt], [Block] and the two proxy
    blocks) and their decoding are not among the source files. Section 3
    names what each record carries; section 4.2 says that integer-bearing
    results are hexadecimal strings decoded with the numeric codec; the
    members are read under the names the remote methods use. *)

(** Modelled from the spec: the type of a hex-encoded integer field is not
    among the source files. Section 4.2: an integer-bearing result is
    decoded with the numeric codec. *)
Definition decodeHexInt : decoder Z :=
  fun v cur =>
    match v with
    | JString s =>
        match Hex.ParseInt s with
        | Ok i => (i, None)
        | Err e => (cur, Some e)
        end
    | JNull => (cur, None)
    | _ => (cur, Some (typeError v "int"))
    end.

(** Modelled from the spec: as [decodeHexInt], with the arbitrary-precision
    codec. *)
Definition decodeHexBig : decoder Z :=
  fun v cur =>
    match v with
    | JString s =>
        match Hex.ParseBigInt s with
        | Ok i => (i, None)
        | Err e => (cur, Some e)
        end
    | JNull => (cur, None)
    | _ => (cur, Some (typeError v "big.Int"))
    end.

(** Modelled from the spec: the type [Syncing] is not among the source
    files. Section 3: either not syncing, or an object carrying progress
    fields. *)
Record Syncing : Type := mkSyncing {
  IsSyncing : bool;
  StartingBlock : Z;
  CurrentBlock : Z;
  HighestBlock : Z
}.

Definition zeroSyncing : Syncing := mkSyncing false 0 0 0.

Definition syncingFields : list (field Syncing) :=
  [ fieldOf "startingBlock" decodeHexInt StartingBlock
      (fun i s => mkSyncing (IsSyncing s) i (CurrentBlock s) (HighestBlock s));
    fieldOf "currentBlock" decodeHexInt CurrentBlock
      (fun i s => mkSyncing (IsSyncing s) (StartingBlock s) i (HighestBlock s));
    fieldOf "highestBlock" decodeHexInt HighestBlock
      (fun i s => mkSyncing (IsSyncing s) (StartingBlock s) (CurrentBlock s) i) ].

(** Modelled from the spec: the decoding of [Syncing] is not among the
    source files. Section 4.4: the payload is decoded as a structured
    progress object, which is the status of a node that is syncing. *)
Definition decodeSyncing : decoder Syncing :=
  fun v cur =>
    match decodeStruct "asimovrpc.Syncing" syncingFields v cur with
    | (s, None) =>
        (mkSyncing true (StartingBlock s) (CurrentBlock s) (HighestBlock s), None)
    | (s, Some e) => (s, Some e)
    end.

(** Modelled from the spec: the type [Transaction] is not among the source
    files. Section 3: sender, recipient, value, gas fields. *)
Record Transaction : Type := mkTransaction {
  From : string;
  To : string;
  Value : Z;
  Gas : Z;
  GasPrice : Z
}.

Definition zeroTransaction : Transaction := mkTransaction "" "" 0 0 0.

Definition transactionFields : list (field Transaction) :=
  [ fieldOf "from" decodeString From
      (fun a t => mkTransaction a (To t) (Value t) (Gas t) (GasPrice t));
    fieldOf "to" decodeString To
      (fun a t => mkTransaction (From t) a (Value t) (Gas t) (GasPrice t));
    fieldOf "value" decodeHexBig Value
      (fun a t => mkTransaction (From t) (To t) a (Gas t) (GasPrice t));
    fieldOf "gas" decodeHexInt Gas
      (fun a t => mkTransaction (From t) (To t) (Value t) a (GasPrice t));
    fieldOf "gasPrice" decodeHexBig GasPrice
      (fun a t => mkTransaction (From t) (To t) (Value t) (Gas t) a) ].

Definition decodeTransaction : decoder Transaction :=
  decodeStruct "asimovrpc.Transaction" transactionFields.

(** Modelled from the spec: the type [Log] is not among the source files.
    Section 3: address, topics, data, block and transaction linkage. *)
Record Log : Type := mkLog {
  Address : string;
  Topics : slice string;
  Data : string;
  BlockNumber : Z;
  BlockHash : string;
  TransactionHash : string
}.

Definition zeroLog : Log := mkLog "" NilSlice "" 0 "" "".

Definition decodeStrings : decoder (slice string) :=
  decodeSlice "[]string" EmptyString decodeString.

Definition logFields : list (field Log) :=
  [ fieldOf "address" decodeString Address
      (fun a l => mkLog a (Topics l) (Data l) (BlockNumber l) (BlockHash l)
                    (TransactionHash l));
    fieldOf "topics" decodeStrings Topics
      (fun a l => mkLog (Address l) a (Data l) (BlockNumber l) (BlockHash l)
                    (TransactionHash l));
    fieldOf "data" decodeString Data
      (fun a l => mkLog (Address l) (Topics l) a (BlockNumber l) (BlockHash l)
                    (TransactionHash l));
    fieldOf "blockNumber" decodeHexInt BlockNumber
      (fun a l => mkLog (Address l) (Topics l) (Data l) a (BlockHash l)
                    (TransactionHash l));
    fieldOf "blockHash" decodeString BlockHash
      (fun a l => mkLog (Address l) (Topics l) (Data l) (BlockNumber l) a
                    (TransactionHash l));
    fieldOf "transactionHash" decodeString TransactionHash
      (fun a l => mkLog (Address l) (Topics l) (Data l) (BlockNumber l)
                    (BlockHash l) a) ].

Definition decodeLog : decoder Log := decodeStruct "asimovrpc.Log" logFields.

Definition decodeLogs : decoder (slice Log) :=
  decodeSlice "[]asimovrpc.Log" zeroLog decodeLog.

(** Modelled from the spec: the type [TransactionReceipt] is not among the
    source files. Section 3: sender, recipient, gas fields, status and
    logs. *)
Record TransactionReceipt : Type := mkReceipt {
  ReceiptFrom : string;
  ReceiptTo : string;
  GasUsed : Z;
  Status : string;
  Logs : slice Log
}.

Definition zeroReceipt : TransactionReceipt := mkReceipt "" "" 0 "" NilSlice.

Definition receiptFields : list (field TransactionReceipt) :=
  [ fieldOf "from" decodeString ReceiptFrom
      (fun a r => mkReceipt a (ReceiptTo r) (GasUsed r) (Status r) (Logs r));
    fieldOf "to" decodeString ReceiptTo
      (fun a r => mkReceipt (ReceiptFrom r) a (GasUsed r) (Status r) (Logs r));
    fieldOf "gasUsed" decodeHexInt GasUsed
      (fun a r => mkReceipt (ReceiptFrom r) (ReceiptTo r) a (Status r) (Logs r));
    fieldOf "status" decodeString Status
      (fun a r => mkReceipt (ReceiptFrom r) (ReceiptTo r) (GasUsed r) a (Logs r));
    fieldOf "logs" decodeLogs Logs
      (fun a r => mkReceipt (ReceiptFrom r) (ReceiptTo r) (GasUsed r) (Status r) a) ].

Definition decodeReceipt : decoder TransactionReceipt :=
  decodeStruct "asimovrpc.TransactionReceipt" receiptFields.

(** Modelled from the spec: the type [Block] and the two proxy blocks are
    not among the source files. Section 3: hash, number, parent hash,
    miner, timestamp, size and gas fields, and a list of transactions that
    is either a list of hashes or a list of full records. The three types
    differ in the transaction list only, the parameter [X] here. *)
Record blockOf (X : Type) : Type := mkBlock {
  Hash : string;
  Number : Z;
  ParentHash : string;
  Miner : string;
  Timestamp : Z;
  Size : Z;
  GasLimit : Z;
  BlockGasUsed : Z;
  Transactions : X
}.
Arguments mkBlock {X}.
Arguments Hash {X}.
Arguments Number {X}.
Arguments ParentHash {X}.
Arguments Miner {X}.
Arguments Timestamp {X}.
Arguments Size {X}.
Arguments GasLimit {X}.
Arguments BlockGasUsed {X}.
Arguments Transactions {X}.

(** Section 4.4: the transaction list of the unified [Block] is a variant,
    hashes or full records. *)
Inductive transactionList : Type :=
| TransactionHashes (hashes : slice string)
| TransactionRecords (records : slice Transaction).

Definition Block : Type := blockOf transactionList.
Definition proxyBlockWithTransactions : Type := blockOf (slice Transaction).
Definition proxyBlockWithoutTransactions : Type := blockOf (slice string).

Definition zeroBlock {X : Type} (x : X) : blockOf X :=
  mkBlock "" 0 "" "" 0 0 0 0 x.

Definition withTransactionList {X Y : Type} (f : X -> Y) (b : blockOf X) : blockOf Y :=
  mkBlock (Hash b) (Number b) (ParentHash b) (Miner b) (Timestamp b) (Size b)
    (GasLimit b) (BlockGasUsed b) (f (Transactions b)).

Definition blockFields {X : Type} (dec : decoder X) : list (field (blockOf X)) :=
  [ fieldOf "hash" decodeString Hash
      (fun a b => mkBlock a (Number b) (ParentHash b) (Miner b) (Timestamp b)
                    (Size b) (GasLimit b) (BlockGasUsed b) (Transactions b));
    fieldOf "number" decodeHexInt Number
      (fun a b => mkBlock (Hash b) a (ParentHash b) (Miner b) (Timestamp b)
                    (Size b) (GasLimit b) (BlockGasUsed b) (Transactions b));
    fieldOf "parentHash" decodeString ParentHash
      (fun a b => mkBlock (Hash b) (Number b) a (Miner b) (Timestamp b)
                    (Size b) (GasLimit b) (BlockGasUsed b) (Transactions b));
    fieldOf "miner" decodeString Miner
      (fun a b => mkBlock (Hash b) (Number b) (ParentHash b) a (Timestamp b)
                    (Size b) (GasLimit b) (BlockGasUsed b) (Transactions b));
    fieldOf "timestamp" decodeHexInt Timestamp
      (fun a b => mkBlock (Hash b) (Number b) (ParentHash b) (Miner b) a
                    (Size b) (GasLimit b) (BlockGasUsed b) (Transactions b));
    fieldOf "size" decodeHexInt Size
      (fun a b => mkBlock (Hash b) (Number b) (ParentHash b) (Miner b)
                    (Timestamp b) a (GasLimit b) (BlockGasUsed b) (Transactions b));
    fieldOf "gasLimit" decodeHexInt GasLimit
      (fun a b => mkBlock (Hash b) (Number b) (ParentHash b) (Miner b)
                    (Timestamp b) (Size b) a (BlockGasUsed b) (Transactions b));
    fieldOf "gasUsed" decodeHexInt BlockGasUsed
      (fun a b => mkBlock (Hash b) (Number b) (ParentHash b) (Miner b)
                    (Timestamp b) (Size b) (GasLimit b) a (Transactions b));
    fieldOf "transactions" dec Transactions
      (fun a b => withTransactionList (fun _ => a) b) ].

Definition decodeBlockWithTransactions : decoder proxyBlockWithTransactions :=
  decodeStruct "asimovrpc.proxyBlockWithTransactions"
    (blockFields
       (decodeSlice "[]asimovrpc.Transaction" zeroTransaction decodeTransaction)).

Definition decodeBlockWithoutTransactions : decoder proxyBlockWithoutTransactions :=
  decodeStruct "asimovrpc.proxyBlockWithoutTransactions"
    (blockFields decodeStrings).

(** [type proxyBlock interface { toBlock() Block }], one constructor per
    implementation. *)
Inductive proxyBlock : Type :=
| WithTransactions (p : proxyBlockWithTransactions)
| WithoutTransactions (p : proxyBlockWithoutTransactions).

Definition toBlock (response : proxyBlock) : Block :=
  match response with
  | WithTransactions p => withTransactionList TransactionRecords p
  | WithoutTransactions p => withTransactionList TransactionHashes p
  end.

(** [json.Unmarshal(result, response)] on the proxy the interface
    holds. *)
Definition unmarshalProxyBlock (result : string) (response : proxyBlock)
  : proxyBlock * option error :=
  match response with
  | WithTransactions p =>
      let (p', e) := Unmarshal decodeBlockWithTransactions result p in
      (WithTransactions p', e)
  | WithoutTransactions p =>
      let (p', e) := Unmarshal decodeBlockWithoutTransactions result p in
      (WithoutTransactions p', e)
  end.

(** ** Method facade *)

Definition str (s : string) : param := Serializable (VString s).
Definition flag (b : bool) : param := Serializable (VBool b).

(** The body shared by the operations whose result is a hex-encoded
    [int]: [var response string; if err := rpc.call(method, &response,
    params...); err != nil { return 0, err }; return ParseInt(response)]. *)
Definition intCall (rpc : AsimovRPC) (method : string) (params : slice param)
  : action Z :=
  fun w =>
    let '((response, err), w) := callVar decodeString rpc method EmptyString params w in
    match err with
    | Some e => ((0, Some e), w)
    | None => (goPair 0 (Hex.ParseInt response), w)
    end.

(** The same with [ParseBigInt], [big.Int{}] being zero. *)
Definition bigCall (rpc : AsimovRPC) (method : string) (params : slice param)
  : action Z :=
  fun w =>
    let '((response, err), w) := callVar decodeString rpc method EmptyString params w in
    match err with
    | Some e => ((0, Some e), w)
    | None => (goPair 0 (Hex.ParseBigInt response), w)
    end.

Definition Web3ClientVersion (rpc : AsimovRPC) : action string :=
  callVar decodeString rpc "web3_clientVersion" EmptyString (variadic []).

Definition Web3Sha3 (rpc : AsimovRPC) (data : string) : action string :=
  callVar decodeString rpc "web3_sha3" EmptyString
    (variadic [str ("0x" ++ Hex.hexBytes data)]).

Definition NetVersion (rpc : AsimovRPC) : action string :=
  callVar decodeString rpc "net_version" EmptyString (variadic []).

Definition NetListening (rpc : AsimovRPC) : action bool :=
  callVar decodeBool rpc "net_listening" false (variadic []).

Definition NetPeerCount (rpc : AsimovRPC) : action Z :=
  intCall rpc "net_peerCount" (variadic []).

Definition AsimovProtocolVersion (rpc : AsimovRPC) : action string :=
  callVar decodeString rpc "flow_protocolVersion" EmptyString (variadic []).

(** [AsimovSyncing]: the raw result is compared with the text [false]
    before anything is decoded. *)
Definition AsimovSyncing (rpc : AsimovRPC) : action (option Syncing) :=
  fun w =>
    let '((result, err), w) := RawCall rpc "flow_syncing" (variadic []) w in
    match err with
    | Some e => ((None, Some e), w)
    | None =>
        let syncing := zeroSyncing in
        if bytesEqual result "false" then ((Some syncing, None), w)
        else
          let (syncing, err) := Unmarshal decodeSyncing result syncing in
          ((Some syncing, err), w)
    end.

Definition AsimovCoinbase (rpc : AsimovRPC) : action string :=
  callVar decodeString rpc "flow_coinbase" EmptyString (variadic []).

Definition AsimovMining (rpc : AsimovRPC) : action bool :=
  callVar decodeBool rpc "flow_mining" false (variadic []).

Definition AsimovHashrate (rpc : AsimovRPC) : action Z :=
  intCall rpc "flow_hashrate" (variadic []).

Definition AsimovGasPrice (rpc : AsimovRPC) : action Z :=
  bigCall rpc "flow_gasPrice" (variadic []).

Definition AsimovAccounts (rpc : AsimovRPC) : action (slice string) :=
  callVar decodeStrings rpc "flow_accounts" (Slice []) (variadic []).

Definition AsimovBlockNumber (rpc : AsimovRPC) : action Z :=
  intCall rpc "flow_blockNumber" (variadic []).

Definition AsimovGetBalance (rpc : AsimovRPC) (address block : string) : action Z :=
  bigCall rpc "flow_getBalance" (variadic [str address; str block]).

Definition AsimovGetStorageAt (rpc : AsimovRPC) (data : string) (position : Z)
    (tag : string) : action string :=
  callVar decodeString rpc "flow_getStorageAt" EmptyString
    (variadic [str data; str (Hex.IntToHex position); str tag]).

Definition AsimovGetTransactionCount (rpc : AsimovRPC) (address block : string)
  : action Z :=
  intCall rpc "flow_getTransactionCount" (variadic [str address; str block]).

Definition AsimovGetBlockTransactionCountByHash (rpc : AsimovRPC) (hash : string)
  : action Z :=
  intCall rpc "flow_getBlockTransactionCountByHash" (variadic [str hash]).

Definition AsimovGetBlockTransactionCountByNumber (rpc : AsimovRPC) (number : Z)
  : action Z :=
  intCall rpc "flow_getBlockTransactionCountByNumber"
    (variadic [str (Hex.IntToHex number)]).

Definition AsimovGetUncleCountByBlockHash (rpc : AsimovRPC) (hash : string)
  : action Z :=
  intCall rpc "flow_getUncleCountByBlockHash" (variadic [str hash]).

Definition AsimovGetUncleCountByBlockNumber (rpc : AsimovRPC) (number : Z)
  : action Z :=
  intCall rpc "flow_getUncleCountByBlockNumber" (variadic [str (Hex.IntToHex number)]).

Definition AsimovGetCode (rpc : AsimovRPC) (address block : string) : action string :=
  callVar decodeString rpc "flow_getCode" EmptyString
    (variadic [str address; str block]).

Definition AsimovSign (rpc : AsimovRPC) (address data : string) : action string :=
  callVar decodeString rpc "flow_sign" EmptyString (variadic [str address; str data]).

Definition AsimovSendRawTransaction (rpc : AsimovRPC) (data : string) : action string :=
  callVar decodeString rpc "flow_sendRawTransaction" EmptyString (variadic [str data]).

(** [getBlock]: the proxy is chosen by [withTransactions] before the
    result is decoded. *)
Definition getBlock (rpc : AsimovRPC) (method : string) (withTransactions : bool)
    (params : slice param) : action (option Block) :=
  fun w =>
    let '((result, err), w) := RawCall rpc method params w in
    match err with
    | Some e => ((None, Some e), w)
    | None =>
        if bytesEqual result "null" then ((None, None), w)
        else
          let response :=
            if withTransactions
            then WithTransactions (zeroBlock NilSlice)
            else WithoutTransactions (zeroBlock NilSlice) in
          let (response, err) := unmarshalProxyBlock result response in
          match err with
          | Some e => ((None, Some e), w)
          | None => let block := toBlock response in ((Some block, None), w)
          end
    end.

Definition AsimovGetBlockByHash (rpc : AsimovRPC) (hash : string)
    (withTransactions : bool) : action (option Block) :=
  getBlock rpc "flow_getBlockByHash" withTransactions
    (variadic [str hash; flag withTransactions]).

Definition AsimovGetBlockByNumber (rpc : AsimovRPC) (number : Z)
    (withTransactions : bool) : action (option Block) :=
  getBlock rpc "flow_getBlockByNumber" withTransactions
    (variadic [str (Hex.IntToHex number); flag withTransactions]).

(** [getTransaction]: the pointer returned is the one allocated before the
    call, whatever the call does. *)
Definition getTransaction (rpc : AsimovRPC) (method : string) (params : slice param)
  : action (option Transaction) :=
  fun w =>
    let transaction := zeroTransaction in
    let '((transaction, err), w) :=
      callVar decodeTransaction rpc method transaction params w in
    ((Some transaction, err), w).

Definition AsimovGetTransactionByHash (rpc : AsimovRPC) (hash : string)
  : action (option Transaction) :=
  getTransaction rpc "flow_getTransactionByHash" (variadic [str hash]).

Definition AsimovGetTransactionByBlockHashAndIndex (rpc : AsimovRPC)
    (blockHash : string) (transactionIndex : Z) : action (option Transaction) :=
  getTransaction rpc "flow_getTransactionByBlockHashAndIndex"
    (variadic [str blockHash; str (Hex.IntToHex transactionIndex)]).

Definition AsimovGetTransactionByBlockNumberAndIndex (rpc : AsimovRPC)
    (blockNumber transactionIndex : Z) : action (option Transaction) :=
  getTransaction rpc "flow_getTransactionByBlockNumberAndIndex"
    (variadic [str (Hex.IntToHex blockNumber); str (Hex.IntToHex transactionIndex)]).

Definition AsimovGetTransactionReceipt (rpc : AsimovRPC) (hash : string)
  : action (option TransactionReceipt) :=
  fun w =>
    let transactionReceipt := zeroReceipt in
    let '((transactionReceipt, err), w) :=
      callVar decodeReceipt rpc "flow_getTransactionReceipt" transactionReceipt
        (variadic [str hash]) w in
    match err with
    | Some e => ((None, Some e), w)
    | None => ((Some transactionReceipt, None), w)
    end.

Definition AsimovGetCompilers (rpc : AsimovRPC) : action (slice string) :=
  callVar decodeStrings rpc "flow_getCompilers" (Slice []) (variadic []).

Definition AsimovNewBlockFilter (rpc : AsimovRPC) : action string :=
  callVar decodeString rpc "flow_newBlockFilter" EmptyString (variadic []).

Definition AsimovNewPendingTransactionFilter (rpc : AsimovRPC) : action string :=
  callVar decodeString rpc "flow_newPendingTransactionFilter" EmptyString (variadic []).

Definition AsimovUninstallFilter (rpc : AsimovRPC) (filterID : string) : action bool :=
  callVar decodeBool rpc "flow_uninstallFilter" false (variadic [str filterID]).

Definition AsimovGetFilterChanges (rpc : AsimovRPC) (filterID : string)
  : action (slice Log) :=
  callVar decodeLogs rpc "flow_getFilterChanges" (Slice []) (variadic [str filterID]).

Definition AsimovGetFilterLogs (rpc : AsimovRPC) (filterID : string)
  : action (slice Log) :=
  callVar decodeLogs rpc "flow_getFilterLogs" (Slice []) (variadic [str filterID]).

(** [Asim1]: one coin in its smallest unit. *)
Definition Asim1 : Z := 1000000000000000000.

Section TypedParameters.

(** The parameter types [T] (a transaction to send or to call with) and
    [FilterParams] are not among the source files: they are taken as they
    come, with the value [json.Marshal] encodes for each. *)
Variables T FilterParams : Type.
Variable valueOfT : T -> value.
Variable valueOfFilterParams : FilterParams -> value.

Definition AsimovSendTransaction (rpc : AsimovRPC) (transaction : T) : action string :=
  callVar decodeString rpc "flow_sendTransaction" EmptyString
    (variadic [Serializable (valueOfT transaction)]).

Definition AsimovCall (rpc : AsimovRPC) (transaction : T) (tag : string)
  : action string :=
  callVar decodeString rpc "flow_call" EmptyString
    (variadic [Serializable (valueOfT transaction); str tag]).

Definition AsimovEstimateGas (rpc : AsimovRPC) (transaction : T) : action Z :=
  intCall rpc "flow_estimateGas" (variadic [Serializable (valueOfT transaction)]).

Definition AsimovNewFilter (rpc : AsimovRPC) (params : FilterParams) : action string :=
  callVar decodeString rpc "flow_newFilter" EmptyString
    (variadic [Serializable (valueOfFilterParams params)]).

Definition AsimovGetLogs (rpc : AsimovRPC) (params : FilterParams)
  : action (slice Log) :=
  callVar decodeLogs rpc "flow_getLogs" (Slice [])
    (variadic [Serializable (valueOfFilterParams params)]).

(** *** The facade as a whole *)

(** One constructor per exported operation, with its arguments. *)
Inductive operation : Type :=
| OpWeb3ClientVersion
| OpWeb3Sha3 (data : string)
| OpNetVersion
| OpNetListening
| OpNetPeerCount
| OpAsimovProtocolVersion
| OpAsimovSyncing
| OpAsimovCoinbase
| OpAsimovMining
| OpAsimovHashrate
| OpAsimovGasPrice
| OpAsimovAccounts
| OpAsimovBlockNumber
| OpAsimovGetBalance (address block : string)
| OpAsimovGetStorageAt (data : string) (position : Z) (tag : string)
| OpAsimovGetTransactionCount (address block : string)
| OpAsimovGetBlockTransactionCountByHash (hash : string)
| OpAsimovGetBlockTransactionCountByNumber (number : Z)
| OpAsimovGetUncleCountByBlockHash (hash : string)
| OpAsimovGetUncleCountByBlockNumber (number : Z)
| OpAsimovGetCode (address block : string)
| OpAsimovSign (address data : string)
| OpAsimovSendTransaction (transaction : T)
| OpAsimovSendRawTransaction (data : string)
| OpAsimovCall (transaction : T) (tag : string)
| OpAsimovEstimateGas (transaction : T)
| OpAsimovGetBlockByHash (hash : string) (withTransactions : bool)
| OpAsimovGetBlockByNumber (number : Z) (withTransactions : bool)
| OpAsimovGetTransactionByHash (hash : string)
| OpAsimovGetTransactionByBlockHashAndIndex (blockHash : string) (transactionIndex : Z)
| OpAsimovGetTransactionByBlockNumberAndIndex (blockNumber transactionIndex : Z)
| OpAsimovGetTransactionReceipt (hash : string)
| OpAsimovGetCompilers
| OpAsimovNewFilter (params : FilterParams)
| OpAsimovNewBlockFilter
| OpAsimovNewPendingTransactionFilter
| OpAsimovUninstallFilter (filterID : string)
| OpAsimovGetFilterChanges (filterID : string)
| OpAsimovGetFilterLogs (filterID : string)
| OpAsimovGetLogs (params : FilterParams).

(** What an operation returns next to its error. *)
Inductive reply : Type :=
| StringReply (s : string)
| BoolReply (b : bool)
| IntReply (i : Z)
| BigIntReply (i : Z)
| StringsReply (l : slice string)
| SyncingReply (s : option Syncing)
| BlockReply (b : option Block)
| TransactionReply (t : option Transaction)
| ReceiptReply (r : option TransactionReceipt)
| LogsReply (l : slice Log).

Definition replying {A : Type} (wrap : A -> reply) (a : action A) : action reply :=
  fun w => let '((v, err), w') := a w in ((wrap v, err), w').

Definition run (op : operation) (rpc : AsimovRPC) : action reply :=
  match op with
  | OpWeb3ClientVersion => replying StringReply (Web3ClientVersion rpc)
  | OpWeb3Sha3 data => replying StringReply (Web3Sha3 rpc data)
  | OpNetVersion => replying StringReply (NetVersion rpc)
  | OpNetListening => replying BoolReply (NetListening rpc)
  | OpNetPeerCount => replying IntReply (NetPeerCount rpc)
  | OpAsimovProtocolVersion => replying StringReply (AsimovProtocolVersion rpc)
  | OpAsimovSyncing => replying SyncingReply (AsimovSyncing rpc)
  | OpAsimovCoinbase => replying StringReply (AsimovCoinbase rpc)
  | OpAsimovMining => replying BoolReply (AsimovMining rpc)
  | OpAsimovHashrate => replying IntReply (AsimovHashrate rpc)
  | OpAsimovGasPrice => replying BigIntReply (AsimovGasPrice rpc)
  | OpAsimovAccounts => replying StringsReply (AsimovAccounts rpc)
  | OpAsimovBlockNumber => replying IntReply (AsimovBlockNumber rpc)
  | OpAsimovGetBalance address block =>
      replying BigIntReply (AsimovGetBalance rpc address block)
  | OpAsimovGetStorageAt data position tag =>
      replying StringReply (AsimovGetStorageAt rpc data position tag)
  | OpAsimovGetTransactionCount address block =>
      replying IntReply (AsimovGetTransactionCount rpc address block)
  | OpAsimovGetBlockTransactionCountByHash hash =>
      replying IntReply (AsimovGetBlockTransactionCountByHash rpc hash)
  | OpAsimovGetBlockTransactionCountByNumber number =>
      replying IntReply (AsimovGetBlockTransactionCountByNumber rpc number)
  | OpAsimovGetUncleCountByBlockHash hash =>
      replying IntReply (AsimovGetUncleCountByBlockHash rpc hash)
  | OpAsimovGetUncleCountByBlockNumber number =>
      replying IntReply (AsimovGetUncleCountByBlockNumber rpc number)
  | OpAsimovGetCode address block =>
      replying StringReply (AsimovGetCode rpc address block)
  | OpAsimovSign address data => replying StringReply (AsimovSign rpc address data)
  | OpAsimovSendTransaction transaction =>
      replying StringReply (AsimovSendTransaction rpc transaction)
  | OpAsimovSendRawTransaction data =>
      replying StringReply (AsimovSendRawTransaction rpc data)
  | OpAsimovCall transaction tag =>
      replying StringReply (AsimovCall rpc transaction tag)
  | OpAsimovEstimateGas transaction =>
      replying IntReply (AsimovEstimateGas rpc transaction)
  | OpAsimovGetBlockByHash hash withTransactions =>
      replying BlockReply (AsimovGetBlockByHash rpc hash withTransactions)
  | OpAsimovGetBlockByNumber number withTransactions =>
      replying BlockReply (AsimovGetBlockByNumber rpc number withTransactions)
  | OpAsimovGetTransactionByHash hash =>
      replying TransactionReply (AsimovGetTransactionByHash rpc hash)
  | OpAsimovGetTransactionByBlockHashAndIndex blockHash transactionIndex =>
      replying TransactionReply
        (AsimovGetTransactionByBlockHashAndIndex rpc blockHash transactionIndex)
  | OpAsimovGetTransactionByBlockNumberAndIndex blockNumber transactionIndex =>
      replying TransactionReply
        (AsimovGetTransactionByBlockNumberAndIndex rpc blockNumber transactionIndex)
  | OpAsimovGetTransactionReceipt hash =>
      replying ReceiptReply (AsimovGetTransactionReceipt rpc hash)
  | OpAsimovGetCompilers => replying StringsReply (AsimovGetCompilers rpc)
  | OpAsimovNewFilter params => replying StringReply (AsimovNewFilter rpc params)
  | OpAsimovNewBlockFilter => replying StringReply (AsimovNewBlockFilter rpc)
  | OpAsimovNewPendingTransactionFilter =>
      replying StringReply (AsimovNewPendingTransactionFilter rpc)
  | OpAsimovUninstallFilter filterID =>
      replying BoolReply (AsimovUninstallFilter rpc filterID)
  | OpAsimovGetFilterChanges filterID =>
      replying LogsReply (AsimovGetFilterChanges rpc filterID)
  | OpAsimovGetFilterLogs filterID =>
      replying LogsReply (AsimovGetFilterLogs rpc filterID)
  | OpAsimovGetLogs params => replying LogsReply (AsimovGetLogs rpc params)
  end.

(** The value an operation holds before the response is looked at: the
    zero value of a variable, an empty slice literal, a nil pointer, or
    the record [getTransaction] allocates. *)
Definition initialReply (op : operation) : reply :=
  match op with
  | OpWeb3ClientVersion | OpWeb3Sha3 _ | OpNetVersion | OpAsimovProtocolVersion
  | OpAsimovCoinbase | OpAsimovGetStorageAt _ _ _ | OpAsimovGetCode _ _
  | OpAsimovSign _ _ | OpAsimovSendTransaction _ | OpAsimovSendRawTransaction _
  | OpAsimovCall _ _ | OpAsimovNewFilter _ | OpAsimovNewBlockFilter
  | OpAsimovNewPendingTransactionFilter => StringReply EmptyString
  | OpNetListening | OpAsimovMining | OpAsimovUninstallFilter _ => BoolReply false
  | OpNetPeerCount | OpAsimovHashrate | OpAsimovBlockNumber
  | OpAsimovGetTransactionCount _ _ | OpAsimovGetBlockTransactionCountByHash _
  | OpAsimovGetBlockTransactionCountByNumber _ | OpAsimovGetUncleCountByBlockHash _
  | OpAsimovGetUncleCountByBlockNumber _ | OpAsimovEstimateGas _ => IntReply 0
  | OpAsimovGasPrice | OpAsimovGetBalance _ _ => BigIntReply 0
  | OpAsimovAccounts | OpAsimovGetCompilers => StringsReply (Slice [])
  | OpAsimovSyncing => SyncingReply None
  | OpAsimovGetBlockByHash _ _ | OpAsimovGetBlockByNumber _ _ => BlockReply None
  | OpAsimovGetTransactionByHash _ | OpAsimovGetTransactionByBlockHashAndIndex _ _
  | OpAsimovGetTransactionByBlockNumberAndIndex _ _ =>
      TransactionReply (Some zeroTransaction)
  | OpAsimovGetTransactionReceipt _ => ReceiptReply None
  | OpAsimovGetFilterChanges _ | OpAsimovGetFilterLogs _ | OpAsimovGetLogs _ =>
      LogsReply (Slice [])
  end.

(** The remote method an operation names and the parameters it sends. *)
Definition requestOf (op : operation) : string * slice param :=
  match op with
  | OpWeb3ClientVersion => ("web3_clientVersion", variadic [])
  | OpWeb3Sha3 data => ("web3_sha3", variadic [str ("0x" ++ Hex.hexBytes data)])
  | OpNetVersion => ("net_version", variadic [])
  | OpNetListening => ("net_listening", variadic [])
  | OpNetPeerCount => ("net_peerCount", variadic [])
  | OpAsimovProtocolVersion => ("flow_protocolVersion", variadic [])
  | OpAsimovSyncing => ("flow_syncing", variadic [])
  | OpAsimovCoinbase => ("flow_coinbase", variadic [])
  | OpAsimovMining => ("flow_mining", variadic [])
  | OpAsimovHashrate => ("flow_hashrate", variadic [])
  | OpAsimovGasPrice => ("flow_gasPrice", variadic [])
  | OpAsimovAccounts => ("flow_accounts", variadic [])
  | OpAsimovBlockNumber => ("flow_blockNumber", variadic [])
  | OpAsimovGetBalance address block =>
      ("flow_getBalance", variadic [str address; str block])
  | OpAsimovGetStorageAt data position tag =>
      ("flow_getStorageAt", variadic [str data; str (Hex.IntToHex position); str tag])
  | OpAsimovGetTransactionCount address block =>
      ("flow_getTransactionCount", variadic [str address; str block])
  | OpAsimovGetBlockTransactionCountByHash hash =>
      ("flow_getBlockTransactionCountByHash", variadic [str hash])
  | OpAsimovGetBlockTransactionCountByNumber number =>
      ("flow_getBlockTransactionCountByNumber", variadic [str (Hex.IntToHex number)])
  | OpAsimovGetUncleCountByBlockHash hash =>
      ("flow_getUncleCountByBlockHash", variadic [str hash])
  | OpAsimovGetUncleCountByBlockNumber number =>
      ("flow_getUncleCountByBlockNumber", variadic [str (Hex.IntToHex number)])
  | OpAsimovGetCode address block =>
      ("flow_getCode", variadic [str address; str block])
  | OpAsimovSign address data => ("flow_sign", variadic [str address; str data])
  | OpAsimovSendTransaction transaction =>
      ("flow_sendTransaction", variadic [Serializable (valueOfT transaction)])
  | OpAsimovSendRawTransaction data =>
      ("flow_sendRawTransaction", variadic [str data])
  | OpAsimovCall transaction tag =>
      ("flow_call", variadic [Serializable (valueOfT transaction); str tag])
  | OpAsimovEstimateGas transaction =>
      ("flow_estimateGas", variadic [Serializable (valueOfT transaction)])
  | OpAsimovGetBlockByHash hash withTransactions =>
      ("flow_getBlockByHash", variadic [str hash; flag withTransactions])
  | OpAsimovGetBlockByNumber number withTransactions =>
      ("flow_getBlockByNumber",
       variadic [str (Hex.IntToHex number); flag withTransactions])
  | OpAsimovGetTransactionByHash hash =>
      ("flow_getTransactionByHash", variadic [str hash])
  | OpAsimovGetTransactionByBlockHashAndIndex blockHash transactionIndex =>
      ("flow_getTransactionByBlockHashAndIndex",
       variadic [str blockHash; str (Hex.IntToHex transactionIndex)])
  | OpAsimovGetTransactionByBlockNumberAndIndex blockNumber transactionIndex =>
      ("flow_getTransactionByBlockNumberAndIndex",
       variadic [str (Hex.IntToHex blockNumber); str (Hex.IntToHex transactionIndex)])
  | OpAsimovGetTransactionReceipt hash =>
      ("flow_getTransactionReceipt", variadic [str hash])
  | OpAsimovGetCompilers => ("flow_getCompilers", variadic [])
  | OpAsimovNewFilter params =>
      ("flow_newFilter", variadic [Serializable (valueOfFilterParams params)])
  | OpAsimovNewBlockFilter => ("flow_newBlockFilter", variadic [])
  | OpAsimovNewPendingTransactionFilter =>
      ("flow_newPendingTransactionFilter", variadic [])
  | OpAsimovUninstallFilter filterID => ("flow_uninstallFilter", variadic [str filterID])
  | OpAsimovGetFilterChanges filterID =>
      ("flow_getFilterChanges", variadic [str filterID])
  | OpAsimovGetFilterLogs filterID => ("flow_getFilterLogs", variadic [str filterID])
  | OpAsimovGetLogs params =>
      ("flow_getLogs", variadic [Serializable (valueOfFilterParams params)])
  end.

End TypedParameters.

Arguments OpWeb3ClientVersion {T FilterParams}.
Arguments OpAsimovSyncing {T FilterParams}.
Arguments OpAsimovGetBlockByHash {T FilterParams} hash withTransactions.
Arguments OpAsimovGetBlockByNumber {T FilterParams} number withTransactions.
Arguments OpAsimovGetTransactionByHash {T FilterParams} hash.
Arguments OpAsimovGetTransactionReceipt {T FilterParams} hash.
Arguments OpAsimovSendTransaction {T FilterParams} transaction.
Arguments run {T FilterParams} valueOfT valueOfFilterParams op rpc.
Arguments initialReply {T FilterParams} op.
Arguments requestOf {T FilterParams} valueOfT valueOfFilterParams op.

(** ** What the properties are stated with *)

(** The body [Call] posts for a request whose parameters the encoder
    accepts. *)
Definition envelope (method : string) (params : value) : string :=
  marshalValue
    (VStruct [ ("id", VInt 1); ("jsonrpc", VString "2.0");
               ("method", VString method); ("params", params) ]).

Definition postOf (rpc : AsimovRPC) (body : string) : post :=
  mkPost (url rpc) "application/json" body.

(** The client answers the request that [Call] makes for [method] and
    [params] in the world [w] with a response whose body, read in full, is
    [data]. *)
Definition answers (rpc : AsimovRPC) (w : world) (method : string)
    (params : slice param) (data : string) : Prop :=
  exists v,
    sliceValue params = Ok v
    /\ Post (client rpc) (wire w) (postOf rpc (envelope method v))
       = PostDone (ReadAll data).

(** What [Call] returns once the body of the response has been read. *)
Definition outcome (data : string) : string * option error :=
  match unmarshalResponse data with
  | Err err => (EmptyString, Some err)
  | Ok resp =>
      match Error resp with
      | Some e => (EmptyString, Some (RemoteError e))
      | None => (Result resp, None)
      end
  end.

(** The requests among the events, in order. *)
Fixpoint posts (events : list event) : list post :=
  match events with
  | [] => []
  | Posted p :: rest => p :: posts rest
  | BodyClosed :: rest => posts rest
  end.

(** ** Fixtures *)

(** A client whose every response has the body [data]. *)
Definition respondWith (data : string) : httpClient :=
  mkClient (fun _ _ => PostDone (ReadAll data)).

(** A logger that appends what it is given. *)
Definition lineLogger : logger := mkLogger (fun line out => (out ++ [line])%list).

(** A node that answers every request with the text [data], in which
    single quotes stand for double quotes. *)
Definition node (data : string) : AsimovRPC :=
  mkRPC "http://127.0.0.1:8545" (respondWith (js data)) lineLogger false.

Definition idle : world := mkWorld [] [].

(** The crafted envelope of the spec. *)
Definition craftedError : string :=
  "{'jsonrpc':'2.0','id':1,'error':{'code':-32000,'message':'x'}}".

(** ** Texts and fixture payloads *)

(** Whether a text starts with a byte that is neither white space nor a
    closing bracket. *)
Definition opens (text : string) : bool :=
  match text with
  | String c _ => negb (isSpace c) && negb (c =? "]")%char
  | EmptyString => false
  end.

(** [text] is the text of the value [v]: it opens with the value, and at
    the depth [depth] a reader with [fuel] or more reads [v] off the front
    of whatever follows [text]. *)
Definition reads (depth : Z) (fuel : nat) (text : string) (v : json) : Prop :=
  opens text = true
  /\ forall f rest, (fuel <= f)%nat ->
       parseValue f depth (text ++ rest) = Some (v, rest).

(** The text of an array, written without white space, from the texts of
    its elements. *)
Definition listText (elements : list string) : string :=
  "[" ++ joinWith "," elements ++ "]".

(** The text of an object, written without white space, from the names of
    its members and the texts of their values. *)
Definition memberText (member : string * string) : string :=
  quote (fst member) ++ ":" ++ snd member.

Definition objectText (members : list (string * string)) : string :=
  "{" ++ joinWith "," (map memberText members) ++ "}".

(** The members an object text denotes, given the values of the texts. *)
Definition membersOf (members : list (string * string)) (vs : list json)
  : list (string * (string * json)) :=
  map (fun mv => (fst (fst mv), (snd (fst mv), snd mv))) (combine members vs).

(** The payload of a block lookup: a block object with its hash and its
    transaction list, the latter given by its text. *)
Definition blockPayload (hash transactions : string) : string :=
  objectText [("hash", quote hash); ("transactions", transactions)].

(** A full transaction record, given by its sender and its recipient, as
    the node writes it, and a list of such records. *)
Definition recordText (r : string * string) : string :=
  objectText [("from", quote (fst r)); ("to", quote (snd r))].

Definition recordsText (records : list (string * string)) : string :=
  listText (map recordText records).

Definition recordJson (r : string * string) : json :=
  JObject (membersOf [("from", quote (fst r)); ("to", quote (snd r))]
             [JString (fst r); JString (snd r)]).

(** The [Transaction] such a record decodes to. *)
Definition recordOf (r : string * string) : Transaction :=
  mkTransaction (fst r) (snd r) 0 0 0.

Definition plainRecord (r : string * string) : bool :=
  allPlain (fst r) && allPlain (snd r).

(** The [Block] with the given hash and transaction list, every other
    field zero. *)
Definition blockHolding (hash : string) (transactions : transactionList) : Block :=
  mkBlock hash 0 "" "" 0 0 0 0 transactions.

(** ** What the further properties are stated with *)

(** Whether [client.Post] handed back a response, whose body [Call] then
    has to close. *)
Definition responded (r : postResult) : bool :=
  match r with
  | PostFailed response _ => response
  | PostDone _ => true
  end.

(** The body [client.Post] handed back, when it was read in full. *)
Definition bodyOf (r : postResult) : option string :=
  match r with
  | PostDone (ReadAll data) => Some data
  | _ => None
  end.

(** The error of an exchange that did not produce a body. *)
Definition exchangeError (r : postResult) : option string :=
  match r with
  | PostFailed _ msg => Some msg
  | PostDone (ReadFailed msg) => Some msg
  | PostDone (ReadAll _) => None
  end.

(** The options the package exports. *)
Inductive exportedOption : (AsimovRPC -> AsimovRPC) -> Prop :=
| OptionHttpClient (c : httpClient) : exportedOption (WithHttpClient c)
| OptionLogger (l : logger) : exportedOption (WithLogger l)
| OptionDebug (enabled : bool) : exportedOption (WithDebug enabled).

(** The remote method an operation names, and the parameters it sends. *)
Definition methodOf {T FilterParams : Type} (valueOfT : T -> value)
    (valueOfFilterParams : FilterParams -> value) (op : operation T FilterParams)
  : string := fst (requestOf valueOfT valueOfFilterParams op).

Definition paramsOf {T FilterParams : Type} (valueOfT : T -> value)
    (valueOfFilterParams : FilterParams -> value) (op : operation T FilterParams)
  : slice param := snd (requestOf valueOfT valueOfFilterParams op).

(** What an operation whose target is a string, a boolean or a slice
    returns when the result is the literal [null]: decoding [null] leaves
    a string or a boolean as it was and makes a slice nil. *)
Definition nullReply {T FilterParams : Type} (op : operation T FilterParams)
  : option reply :=
  match initialReply op with
  | StringReply s => Some (StringReply s)
  | BoolReply b => Some (BoolReply b)
  | StringsReply _ => Some (StringsReply NilSlice)
  | LogsReply _ => Some (LogsReply NilSlice)
  | _ => None
  end.

(** The JSON values a string target takes without complaint. *)
Definition fitsString (v : json) : bool :=
  match v with
  | JString _ | JNull => true
  | _ => false
  end.

(** The text of a JSON array of strings, written without white space. *)
Definition arrayText (items : list string) : string :=
  "[" ++ joinWith "," (map quote items) ++ "]".

(** ** Further fixtures *)

(** A client whose every exchange fails before a response arrives. *)
Definition unreachable (msg : string) : httpClient :=
  mkClient (fun _ _ => PostFailed false msg).

(** A client whose every response breaks off while its body is read. *)
Definition truncating (msg : string) : httpClient :=
  mkClient (fun _ _ => PostDone (ReadFailed msg)).

(** A node behind the client [c]. *)
Definition nodeBehind (c : httpClient) : AsimovRPC :=
  mkRPC "http://127.0.0.1:8545" c lineLogger false.

(** * Properties *)

Module HexFacts.
Import Hex.

Lemma hexVal_hexDigit (d : Z) : 0 <= d < 16 -> hexVal (hexDigit d) = Some d.
Proof.
  intros H.
  assert (E : d = 0 \/ d = 1 \/ d = 2 \/ d = 3 \/ d = 4 \/ d = 5 \/ d = 6 \/ d = 7
           \/ d = 8 \/ d = 9 \/ d = 10 \/ d = 11 \/ d = 12 \/ d = 13 \/ d = 14
           \/ d = 15) by lia.
  repeat (destruct E as [E | E]; [subst d; reflexivity |]).
  subst d; reflexivity.
Qed.

Lemma isLowerHex_hexDigit (d : Z) : 0 <= d < 16 -> isLowerHex (hexDigit d) = true.
Proof.
  intros H.
  assert (E : d = 0 \/ d = 1 \/ d = 2 \/ d = 3 \/ d = 4 \/ d = 5 \/ d = 6 \/ d = 7
           \/ d = 8 \/ d = 9 \/ d = 10 \/ d = 11 \/ d = 12 \/ d = 13 \/ d = 14
           \/ d = 15) by lia.
  repeat (destruct E as [E | E]; [subst d; reflexivity |]).
  subst d; reflexivity.
Qed.

Lemma hexDigit_zero (d : Z) : 0 <= d < 16 -> hexDigit d = "0"%char -> d = 0.
Proof.
  intros H E.
  assert (V : hexVal (hexDigit d) = Some d) by (apply hexVal_hexDigit; exact H).
  rewrite E in V. vm_compute in V. congruence.
Qed.

Lemma fromHex_toHex (fuel : nat) :
  forall n acc, 0 <= n < 16 ^ Z.of_nat fuel ->
    fromHex (toHex fuel n acc) 0 = fromHex acc n.
Proof.
  induction fuel as [| fuel IH]; intros n acc Hn.
  - simpl in *. replace n with 0 by lia. reflexivity.
  - rewrite Nat2Z.inj_succ, Z.pow_succ_r in Hn by lia.
    assert (Hm : 0 <= n mod 16 < 16) by (apply Z.mod_pos_bound; lia).
    assert (Hd : n = 16 * (n / 16) + n mod 16) by (apply Z.div_mod; lia).
    cbn [toHex]. destruct (Z.eqb_spec (n / 16) 0) as [E | E].
    + cbn [fromHex]. rewrite hexVal_hexDigit by exact Hm.
      f_equal. lia.
    + rewrite IH.
      * cbn [fromHex]. rewrite hexVal_hexDigit by exact Hm. f_equal. lia.
      * split; [apply Z.div_pos; lia | apply Z.div_lt_upper_bound; lia].
Qed.

Lemma hexFuel_enough (n : Z) : 0 <= n -> n < 16 ^ Z.of_nat (hexFuel n).
Proof.
  intros Hn. unfold hexFuel.
  rewrite Nat2Z.inj_succ, Z2Nat.id by apply Z.log2_nonneg.
  destruct (Z.eq_dec n 0) as [-> | Hz]; [reflexivity |].
  assert (L : n < 2 ^ Z.succ (Z.log2 n)) by (apply Z.log2_spec; lia).
  eapply Z.lt_le_trans; [exact L |].
  apply Z.pow_le_mono_l. lia.
Qed.

Lemma fromHex_hexString (n : Z) : 0 <= n -> fromHex (hexString n) 0 = Some n.
Proof.
  intros Hn. unfold hexString.
  rewrite fromHex_toHex by (split; [exact Hn | apply hexFuel_enough; exact Hn]).
  reflexivity.
Qed.

Lemma allLowerHex_toHex (fuel : nat) :
  forall n acc, allLowerHex acc = true -> allLowerHex (toHex fuel n acc) = true.
Proof.
  induction fuel as [| fuel IH]; intros n acc Hacc; [exact Hacc |].
  cbn [toHex].
  assert (H' : allLowerHex (String (hexDigit (n mod 16)) acc) = true).
  { cbn [allLowerHex]. rewrite isLowerHex_hexDigit, Hacc; [reflexivity |].
    apply Z.mod_pos_bound. lia. }
  destruct (n / 16 =? 0); [exact H' | apply IH; exact H'].
Qed.

(** With enough fuel the first digit written for a positive number is not
    zero. *)
Lemma toHex_head (fuel : nat) :
  forall n acc, 0 < n < 16 ^ Z.of_nat fuel ->
    exists d rest, toHex fuel n acc = String (hexDigit d) rest /\ 0 < d < 16.
Proof.
  induction fuel as [| fuel IH]; intros n acc Hn.
  - simpl in Hn. lia.
  - rewrite Nat2Z.inj_succ, Z.pow_succ_r in Hn by lia.
    assert (Hm : 0 <= n mod 16 < 16) by (apply Z.mod_pos_bound; lia).
    assert (Hd : n = 16 * (n / 16) + n mod 16) by (apply Z.div_mod; lia).
    cbn [toHex]. destruct (Z.eqb_spec (n / 16) 0) as [E | E].
    + exists (n mod 16), acc. split; [reflexivity | lia].
    + apply IH.
      assert (0 <= n / 16) by (apply Z.div_pos; lia).
      split; [lia | apply Z.div_lt_upper_bound; lia].
Qed.

Lemma canonicalDigits_hexString (n : Z) :
  0 <= n -> canonicalDigits (hexString n) = true.
Proof.
  intros Hn. destruct (Z.eq_dec n 0) as [-> | Hz]; [reflexivity |].
  destruct (toHex_head (hexFuel n) n "") as (d & rest & E & Hd).
  { split; [lia | apply hexFuel_enough; exact Hn]. }
  assert (A : allLowerHex (hexString n) = true)
    by (apply allLowerHex_toHex; reflexivity).
  unfold hexString in *. rewrite E in *. cbn [canonicalDigits].
  destruct (Ascii.eqb_spec (hexDigit d) "0") as [Z0 | _]; [| exact A].
  apply hexDigit_zero in Z0; lia.
Qed.

Lemma hexDigitsValue_hexString (n : Z) :
  0 <= n -> hexDigitsValue ("0x" ++ hexString n) = Ok n.
Proof.
  intros Hn. pose proof (fromHex_hexString n Hn) as F.
  pose proof (canonicalDigits_hexString n Hn) as C.
  cbn [append hexDigitsValue].
  destruct (hexString n) as [| c rest]; [discriminate C |].
  rewrite F. reflexivity.
Qed.

Lemma IntToHex_nonneg (n : Z) : 0 <= n -> IntToHex n = "0x" ++ hexString n.
Proof.
  intros Hn. unfold IntToHex.
  destruct (Z.ltb_spec n 0); [lia | reflexivity].
Qed.

(** C7. Spec-modelled codec: for every integer [n] with [0 <= n <= maxInt],
    decoding the encoding of [n] gives [n] back, and the encoding is a
    [0x]-prefixed lowercase hexadecimal string without superfluous leading
    zero digits, zero being [0x0]; the arbitrary-precision codec satisfies
    the same law for every non-negative integer. *)
Theorem hex_codec_roundtrip :
  (forall n, 0 <= n <= maxInt ->
     ParseInt (IntToHex n) = Ok n /\ canonicalHex (IntToHex n) = true) /\
  (forall n, 0 <= n ->
     ParseBigInt (BigToHex n) = Ok n /\ canonicalHex (BigToHex n) = true) /\
  IntToHex 0 = "0x0" /\ BigToHex 0 = "0x0".
Proof.
  repeat split; try reflexivity.
  - unfold ParseInt. rewrite IntToHex_nonneg, hexDigitsValue_hexString by lia.
    destruct (Z.leb_spec n maxInt); [reflexivity | lia].
  - rewrite IntToHex_nonneg by lia. apply canonicalDigits_hexString. lia.
  - unfold ParseBigInt, BigToHex.
    rewrite IntToHex_nonneg, hexDigitsValue_hexString by lia. reflexivity.
  - unfold BigToHex. rewrite IntToHex_nonneg by lia.
    apply canonicalDigits_hexString. lia.
Qed.

Lemma hex_codec_roundtrip_witness :
  (0 <= 255 <= maxInt /\
     ParseInt (IntToHex 255) = Ok 255 /\ canonicalHex (IntToHex 255) = true) /\
  (0 <= 1000000000000000000 /\
     ParseBigInt (BigToHex 1000000000000000000) = Ok 1000000000000000000 /\
     canonicalHex (BigToHex 1000000000000000000) = true).
Proof.
  split.
  - split; [unfold maxInt; lia |].
    apply (proj1 hex_codec_roundtrip 255). unfold maxInt; lia.
  - split; [lia |].
    apply (proj1 (proj2 hex_codec_roundtrip) 1000000000000000000). lia.
Defined.

Example IntToHex_255 : IntToHex 255 = "0xff".
Proof. reflexivity. Qed.

Example ParseInt_missing_prefix : ParseInt "123" = Err (FormatError "missing 0x prefix").
Proof. reflexivity. Qed.

Example ParseInt_invalid_digits :
  ParseInt "0xzz" = Err (FormatError "invalid hexadecimal digit").
Proof. reflexivity. Qed.

Example ParseBigInt_one_coin :
  ParseBigInt "0xde0b6b3a7640000" = Ok 1000000000000000000.
Proof. reflexivity. Qed.

End HexFacts.

Lemma append_assoc (a b c : string) : (a ++ b) ++ c = a ++ (b ++ c).
Proof.
  induction a as [| x a IH]; [reflexivity |].
  cbn [append]. rewrite IH. reflexivity.
Qed.

(** ** JSON texts *)

Module JsonFacts.
Import Bytes Json.

Lemma skipSpace_length (s : string) :
  (String.length (skipSpace s) <= String.length s)%nat.
Proof.
  induction s as [| c s IH]; [apply le_n |].
  cbn [skipSpace]. destruct (isSpace c); cbn [String.length]; lia.
Qed.

Lemma stripPrefix_length (p : string) :
  forall s r, stripPrefix p s = Some r -> (String.length r <= String.length s)%nat.
Proof.
  induction p as [| a p IH]; intros s r H.
  - cbn in H. injection H as <-. apply le_n.
  - destruct s as [| b s]; [discriminate H |].
    cbn [stripPrefix] in H. destruct (a =? b)%char; [| discriminate H].
    apply IH in H. cbn [String.length]. lia.
Qed.

Lemma spanDigits_length (s : string) :
  forall ds r, spanDigits s = (ds, r) -> (String.length r <= String.length s)%nat.
Proof.
  induction s as [| c s IH]; intros ds r H.
  - cbn in H. injection H as <- <-. apply le_n.
  - cbn [spanDigits] in H. destruct (isDigit c).
    + destruct (spanDigits s) as [ds' r'] eqn:E. injection H as <- <-.
      specialize (IH ds' r' eq_refl). cbn [String.length]. lia.
    + injection H as <- <-. apply le_n.
Qed.

Lemma emit_some (out : string) (k : option (string * string)) (s r : string) :
  emit out k = Some (s, r) -> exists s', k = Some (s', r).
Proof.
  destruct k as [[s' r'] |]; [| discriminate].
  cbn. intros H. injection H as <- <-. exists s'. reflexivity.
Qed.

(** A string literal is not empty: what follows it is shorter than what
    it started in. *)
Lemma unquoteFrom_length (s : string) :
  forall skip out r,
    unquoteFrom skip s = Some (out, r) -> (String.length r < String.length s)%nat.
Proof.
  induction s as [| c s IH]; intros skip out r H; [discriminate H |].
  assert (K : forall n o, unquoteFrom n s = Some (o, r) ->
                (String.length r < String.length (String c s))%nat).
  { intros n o Hn. apply IH in Hn. cbn [String.length]. lia. }
  cbn [unquoteFrom] in H. destruct skip as [| skip]; [| exact (K _ _ H)].
  destruct (c =? dquote)%char.
  { injection H as <- <-. cbn [String.length]. lia. }
  destruct (c =? "\")%char.
  { destruct s as [| e s']; [discriminate H |].
    destruct (e =? "u")%char.
    - destruct (unicodeEscape (String e s')) as [[o n] |]; [| discriminate H].
      apply emit_some in H. destruct H as [o' H]. exact (K _ _ H).
    - destruct (simpleEscape e); [| discriminate H].
      apply emit_some in H. destruct H as [o' H]. exact (K _ _ H). }
  destruct (byte c <? 32); [discriminate H |].
  destruct (byte c <? 128).
  { apply emit_some in H. destruct H as [o' H]. exact (K _ _ H). }
  destruct (utf8Len (String c s));
    apply emit_some in H; destruct H as [o' H]; exact (K _ _ H).
Qed.

Lemma scanString_length (s out r : string) :
  scanString s = Some (out, r) -> (String.length r < String.length s)%nat.
Proof. apply unquoteFrom_length. Qed.

(** A number literal has a digit. *)
Lemma scanNumber_length (s lit r : string) :
  scanNumber s = Some (lit, r) -> (String.length r < String.length s)%nat.
Proof.
  unfold scanNumber. intros H.
  destruct (match s with
            | String c r0 => if (c =? "-")%char then ("-", r0) else (EmptyString, s)
            | EmptyString => (EmptyString, s)
            end) as [sign s1] eqn:Es.
  assert (L1 : (String.length s1 <= String.length s)%nat).
  { destruct s as [| c r0]; [injection Es as <- <-; apply le_n |].
    destruct (c =? "-")%char; injection Es as <- <-; cbn [String.length]; lia. }
  destruct s1 as [| c r1]; [discriminate H |].
  destruct (isDigit c); [| discriminate H].
  destruct (if (c =? "0")%char then (String c EmptyString, r1)
            else let (ds, r') := spanDigits r1 in (String c ds, r')) as [int s2] eqn:Ei.
  assert (L2 : (String.length s2 <= String.length r1)%nat).
  { destruct (c =? "0")%char; [injection Ei as <- <-; apply le_n |].
    destruct (spanDigits r1) as [ds r'] eqn:Ed. injection Ei as <- <-.
    exact (spanDigits_length _ _ _ Ed). }
  match type of H with
  | match ?frac with _ => _ end = _ => destruct frac as [[fr s3] |] eqn:Ef
  end; [| discriminate H].
  assert (L3 : (String.length s3 <= String.length s2)%nat).
  { destruct s2 as [| d r2]; [injection Ef as <- <-; apply le_n |].
    destruct (d =? ".")%char; [| injection Ef as <- <-; apply le_n].
    destruct (spanDigits r2) as [ds r3] eqn:Ed.
    destruct (isEmpty ds); [discriminate Ef |]. injection Ef as <- <-.
    apply spanDigits_length in Ed. cbn [String.length]. lia. }
  match type of H with
  | match ?exp with _ => _ end = _ => destruct exp as [[ex s4] |] eqn:Ee
  end; [| discriminate H].
  injection H as <- <-.
  assert (L4 : (String.length s4 <= String.length s3)%nat).
  { destruct s3 as [| e r3]; [injection Ee as <- <-; apply le_n |].
    destruct ((e =? "e")%char || (e =? "E")%char); [| injection Ee as <- <-; apply le_n].
    match type of Ee with
    | (let (sg, r4) := ?sgn in _) = _ => destruct sgn as [sg r4] eqn:Eg
    end.
    assert (L : (String.length r4 <= String.length r3)%nat).
    { destruct r3 as [| g r']; [injection Eg as <- <-; apply le_n |].
      destruct ((g =? "+")%char || (g =? "-")%char); injection Eg as <- <-;
        cbn [String.length]; lia. }
    destruct (spanDigits r4) as [ds r5] eqn:Ed.
    destruct (isEmpty ds); [discriminate Ee |]. injection Ee as <- <-.
    apply spanDigits_length in Ed. cbn [String.length]. lia. }
  cbn [String.length] in *. lia.
Qed.

(** The encoder writes a plain byte as it is, and the decoder reads it
    back as it is. *)
Lemma isPlain_bytes (c : ascii) :
  isPlain c = true ->
  quoteByte c = String c EmptyString
  /\ (c =? dquote)%char = false /\ (c =? "\")%char = false
  /\ (byte c <? 32) = false /\ (byte c <? 128) = true.
Proof.
  unfold isPlain, quoteByte, inRange. intros H.
  apply andb_prop in H. destruct H as [R N].
  apply andb_prop in R. destruct R as [Lo Hi].
  apply Z.leb_le in Lo, Hi.
  apply negb_true_iff in N.
  repeat (apply orb_false_elim in N; destruct N as [N ?]).
  assert (L : (byte c <? 32) = false) by (apply Z.ltb_ge; lia).
  assert (E10 : (byte c =? 10) = false) by (apply Z.eqb_neq; lia).
  assert (E13 : (byte c =? 13) = false) by (apply Z.eqb_neq; lia).
  assert (E9 : (byte c =? 9) = false) by (apply Z.eqb_neq; lia).
  repeat match goal with H : _ = false |- _ => rewrite H end.
  repeat split. apply Z.ltb_lt. lia.
Qed.

Lemma quote_plain (s : string) :
  allPlain s = true -> quote s = String dquote (s ++ String dquote EmptyString).
Proof.
  intros H. unfold quote. f_equal. f_equal.
  induction s as [| c s IH]; [reflexivity |].
  cbn [allPlain] in H. apply andb_prop in H. destruct H as [Hc Hs].
  destruct (isPlain_bytes c Hc) as (Q & _ & _ & _ & A).
  cbn [quoteFrom]. rewrite A, Q, (IH Hs). reflexivity.
Qed.

Lemma scanString_plain (s rest : string) :
  allPlain s = true ->
  scanString (s ++ String dquote rest) = Some (s, rest).
Proof.
  intros H. unfold scanString.
  induction s as [| c s IH].
  - cbn [append unquoteFrom]. rewrite Ascii.eqb_refl. reflexivity.
  - cbn [allPlain] in H. apply andb_prop in H. destruct H as [Hc Hs].
    destruct (isPlain_bytes c Hc) as (_ & D & B & L & A).
    cbn [append unquoteFrom]. rewrite D, B, L, A, (IH Hs). reflexivity.
Qed.

(** Fuel. A reader that returns a result with some fuel has consumed
    input, and returns the same result with any fuel that is at least
    twice what it consumed. *)
Lemma fuel_adequate (f : nat) :
  (forall d s v r, parseValue f d s = Some (v, r) ->
     (String.length r < String.length s)%nat
     /\ forall g, (2 * String.length s <= g + 2 * String.length r + 1)%nat ->
          parseValue g d s = Some (v, r))
  /\ (forall d s vs r, parseElements f d s = Some (vs, r) ->
        (String.length r < String.length s)%nat
        /\ forall g, (2 * String.length s <= g + 2 * String.length r + 2)%nat ->
             parseElements g d s = Some (vs, r))
  /\ (forall d s ms r, parseMembers f d s = Some (ms, r) ->
        (String.length r < String.length s)%nat
        /\ forall g, (2 * String.length s <= g + 2 * String.length r + 2)%nat ->
             parseMembers g d s = Some (ms, r)).
Proof.
  induction f as [| f (IHV & IHE & IHM)].
  { repeat split; discriminate. }
  split; [| split].
  - (* values *)
    intros d s v r H. cbn [parseValue] in H. unfold valueStep in H.
    destruct s as [| c rest]; [discriminate H |].
    assert (Scalar : (String.length r < String.length (String c rest))%nat ->
              valueStep (fun d t => parseElements 0 d t) (fun d t => parseMembers 0 d t)
                d (String c rest) = Some (v, r) ->
              (String.length r < String.length (String c rest))%nat
              /\ forall g, (2 * String.length (String c rest)
                            <= g + 2 * String.length r + 1)%nat ->
                   parseValue g d (String c rest) = Some (v, r)).
    { intros L E. split; [exact L |]. intros g Hg.
      destruct g as [| g]; [lia |]. cbn [parseValue].
      unfold valueStep in *.
      destruct (c =? "{")%char.
      { destruct (maxNestingDepth <? d + 1)%Z; [discriminate E |].
        destruct (skipSpace rest) as [| c' rest']; [discriminate E |].
        destruct (c' =? "}")%char; [exact E | discriminate E]. }
      destruct (c =? "[")%char.
      { destruct (maxNestingDepth <? d + 1)%Z; [discriminate E |].
        destruct (skipSpace rest) as [| c' rest']; [discriminate E |].
        destruct (c' =? "]")%char; [exact E | discriminate E]. }
      exact E. }
    destruct (c =? "{")%char eqn:E1.
    { destruct (maxNestingDepth <? d + 1)%Z eqn:E2; [discriminate H |].
      destruct (skipSpace rest) as [| c' rest'] eqn:E3; [discriminate H |].
      pose proof (skipSpace_length rest) as LS. rewrite E3 in LS.
      destruct (c' =? "}")%char eqn:E4.
      - injection H as <- <-. apply Scalar.
        + cbn [String.length] in *. lia.
        + unfold valueStep. rewrite E1, E2, E3, E4. reflexivity.
      - destruct (parseMembers f (d + 1) (String c' rest')) as [[ms r0] |] eqn:EM;
          [| discriminate H].
        injection H as <- <-. apply IHM in EM. destruct EM as [L G].
        split; [cbn [String.length] in *; lia |].
        intros g Hg. destruct g as [| g]; [cbn [String.length] in *; lia |].
        cbn [parseValue]. unfold valueStep. rewrite E1, E2, E3, E4.
        rewrite G; [reflexivity | cbn [String.length] in *; lia]. }
    destruct (c =? "[")%char eqn:E1'.
    { destruct (maxNestingDepth <? d + 1)%Z eqn:E2; [discriminate H |].
      destruct (skipSpace rest) as [| c' rest'] eqn:E3; [discriminate H |].
      pose proof (skipSpace_length rest) as LS. rewrite E3 in LS.
      destruct (c' =? "]")%char eqn:E4.
      - injection H as <- <-. apply Scalar.
        + cbn [String.length] in *. lia.
        + unfold valueStep. rewrite E1, E1', E2, E3, E4. reflexivity.
      - destruct (parseElements f (d + 1) (String c' rest')) as [[vs r0] |] eqn:EM;
          [| discriminate H].
        injection H as <- <-. apply IHE in EM. destruct EM as [L G].
        split; [cbn [String.length] in *; lia |].
        intros g Hg. destruct g as [| g]; [cbn [String.length] in *; lia |].
        cbn [parseValue]. unfold valueStep. rewrite E1, E1', E2, E3, E4.
        rewrite G; [reflexivity | cbn [String.length] in *; lia]. }
    apply Scalar.
    + destruct (c =? dquote)%char.
      { destruct (scanString rest) as [[str r0] |] eqn:ES; [| discriminate H].
        injection H as <- <-. apply scanString_length in ES.
        cbn [String.length]. lia. }
      assert (P : forall p b, option_map (fun r1 => (b, r1)) (stripPrefix p rest)
                              = Some (v, r) ->
                    (String.length r < String.length (String c rest))%nat).
      { intros p b Hp. destruct (stripPrefix p rest) as [r1 |] eqn:EP;
          [| discriminate Hp].
        cbn in Hp. injection Hp as <- <-. apply stripPrefix_length in EP.
        cbn [String.length]. lia. }
      destruct (c =? "t")%char; [exact (P _ _ H) |].
      destruct (c =? "f")%char; [exact (P _ _ H) |].
      destruct (c =? "n")%char; [exact (P _ _ H) |].
      destruct (scanNumber (String c rest)) as [[lit r0] |] eqn:EN; [| discriminate H].
      injection H as <- <-. exact (scanNumber_length _ _ _ EN).
    + unfold valueStep. rewrite E1, E1'. exact H.
  - (* elements *)
    intros d s vs r H. cbn [parseElements] in H. unfold elementsStep in H.
    destruct (parseValue f d s) as [[v r0] |] eqn:EV; [| discriminate H].
    apply IHV in EV. destruct EV as [LV GV].
    destruct (skipSpace r0) as [| c r'] eqn:E3; [discriminate H |].
    pose proof (skipSpace_length r0) as LS. rewrite E3 in LS.
    destruct (c =? ",")%char eqn:E4.
    + destruct (parseElements f d (skipSpace r')) as [[vs' r''] |] eqn:EE;
        [| discriminate H].
      injection H as <- <-. apply IHE in EE. destruct EE as [LE GE].
      pose proof (skipSpace_length r') as LS'.
      split; [cbn [String.length] in *; lia |].
      intros g Hg. destruct g as [| g]; [cbn [String.length] in *; lia |].
      cbn [parseElements]. unfold elementsStep.
      rewrite GV by (cbn [String.length] in *; lia).
      rewrite E3, E4. rewrite GE by (cbn [String.length] in *; lia). reflexivity.
    + destruct (c =? "]")%char eqn:E5; [| discriminate H].
      injection H as <- <-.
      split; [cbn [String.length] in *; lia |].
      intros g Hg. destruct g as [| g]; [cbn [String.length] in *; lia |].
      cbn [parseElements]. unfold elementsStep.
      rewrite GV by (cbn [String.length] in *; lia).
      rewrite E3, E4, E5. reflexivity.
  - (* members *)
    intros d s ms r H. cbn [parseMembers] in H. unfold membersStep in H.
    destruct s as [| q afterQuote]; [discriminate H |].
    destruct (negb (q =? dquote)%char) eqn:E1; [discriminate H |].
    destruct (scanString afterQuote) as [[key r0] |] eqn:ES; [| discriminate H].
    pose proof (scanString_length _ _ _ ES) as LK.
    destruct (skipSpace r0) as [| colon r1] eqn:E2; [discriminate H |].
    pose proof (skipSpace_length r0) as LS0. rewrite E2 in LS0.
    destruct (negb (colon =? ":")%char) eqn:E3; [discriminate H |].
    pose proof (skipSpace_length r1) as LS1.
    destruct (parseValue f d (skipSpace r1)) as [[v r2] |] eqn:EV; [| discriminate H].
    apply IHV in EV. destruct EV as [LV GV].
    cbv zeta in H.
    destruct (skipSpace r2) as [| c r3] eqn:E4; [discriminate H |].
    pose proof (skipSpace_length r2) as LS2. rewrite E4 in LS2.
    destruct (c =? ",")%char eqn:E5.
    + destruct (parseMembers f d (skipSpace r3)) as [[ms' r4] |] eqn:EM;
        [| discriminate H].
      injection H as <- <-. apply IHM in EM. destruct EM as [LM GM].
      pose proof (skipSpace_length r3) as LS3.
      split; [cbn [String.length] in *; lia |].
      intros g Hg. destruct g as [| g]; [cbn [String.length] in *; lia |].
      cbn [parseMembers]. unfold membersStep. rewrite E1, ES, E2, E3.
      rewrite GV by (cbn [String.length] in *; lia). cbv zeta.
      rewrite E4, E5. rewrite GM by (cbn [String.length] in *; lia). reflexivity.
    + destruct (c =? "}")%char eqn:E6; [| discriminate H].
      injection H as <- <-.
      split; [cbn [String.length] in *; lia |].
      intros g Hg. destruct g as [| g]; [cbn [String.length] in *; lia |].
      cbn [parseMembers]. unfold membersStep. rewrite E1, ES, E2, E3.
      rewrite GV by (cbn [String.length] in *; lia). cbv zeta.
      rewrite E4, E5, E6. reflexivity.
Qed.

(** The fuel [parse] gives is enough: whatever a reader returns with any
    amount of fuel, it returns with [parseFuel]. *)
Theorem parseFuel_enough (f : nat) (d : Z) (s : string) (v : json) (r : string) :
  parseValue f d s = Some (v, r) -> parseValue (parseFuel s) d s = Some (v, r).
Proof.
  intros H. destruct (fuel_adequate f) as (V & _ & _).
  destruct (V d s v r H) as [_ G]. apply G. unfold parseFuel. lia.
Qed.

(** *** Texts written without white space *)

Lemma opens_append (t rest : string) :
  opens t = true -> skipSpace (t ++ rest) = t ++ rest.
Proof.
  destruct t as [| c t]; [discriminate |]. cbn [opens append skipSpace].
  intros H. apply andb_prop in H. destruct H as [H _].
  destruct (isSpace c); [discriminate H | reflexivity].
Qed.

Lemma opens_head (t rest : string) :
  opens t = true ->
  exists c tl, t ++ rest = String c tl /\ (c =? "]")%char = false.
Proof.
  destruct t as [| c t]; [discriminate |]. cbn [opens append].
  intros H. apply andb_prop in H. destruct H as [_ H].
  exists c, (t ++ rest). split; [reflexivity |].
  destruct (c =? "]")%char; [discriminate H | reflexivity].
Qed.

Lemma append_nil (s : string) : s ++ "" = s.
Proof. induction s as [| c s IH]; [reflexivity |]. cbn [append]. rewrite IH. reflexivity. Qed.

Lemma append_length (a b : string) :
  String.length (a ++ b) = (String.length a + String.length b)%nat.
Proof. induction a as [| c a IH]; [reflexivity |]. cbn [append String.length]. rewrite IH. reflexivity. Qed.

Lemma take_append (a b : string) : take (String.length a) (a ++ b) = a.
Proof. induction a as [| c a IH]; [destruct b; reflexivity |]. cbn [append String.length take]. rewrite IH. reflexivity. Qed.

Lemma consumed_append (t rest : string) : consumed (t ++ rest) rest = t.
Proof.
  unfold consumed. rewrite append_length.
  replace (String.length t + String.length rest - String.length rest)%nat
    with (String.length t) by lia.
  apply take_append.
Qed.

Lemma reads_quote (d : Z) (s : string) :
  allPlain s = true -> reads d 1 (quote s) (JString s).
Proof.
  intros H. split; [reflexivity |].
  intros f rest Hf. destruct f as [| f]; [lia |].
  rewrite (quote_plain s H). cbn [append parseValue]. unfold valueStep.
  change ((dquote =? "{")%char) with false.
  change ((dquote =? "[")%char) with false.
  rewrite Ascii.eqb_refl. cbv iota.
  rewrite append_assoc. cbn [append].
  rewrite (scanString_plain s rest H). reflexivity.
Qed.

Lemma parseElements_unfold (f : nat) (d : Z) (s : string) :
  parseElements (S f) d s
    = elementsStep (parseValue f) (parseElements f) d s.
Proof. reflexivity. Qed.

Lemma parseMembers_unfold (f : nat) (d : Z) (s : string) :
  parseMembers (S f) d s
    = membersStep (parseValue f) (parseMembers f) d s.
Proof. reflexivity. Qed.

Lemma parseValue_unfold (f : nat) (d : Z) (s : string) :
  parseValue (S f) d s
    = valueStep (parseElements f) (parseMembers f) d s.
Proof. reflexivity. Qed.

Lemma opens_joinWith (sep t : string) (ts : list string) :
  opens t = true -> opens (joinWith sep (t :: ts)) = true.
Proof.
  intros H. destruct t as [| c t]; [discriminate |].
  destruct ts; exact H.
Qed.

Lemma skipSpace_head (c : ascii) (s : string) :
  isSpace c = false -> skipSpace (String c s) = String c s.
Proof. intros H. cbn [skipSpace]. rewrite H. reflexivity. Qed.

Lemma parseElements_reads (d : Z) (k : nat) (texts : list string) (vs : list json) :
  Forall2 (reads d k) texts vs ->
  texts <> [] ->
  forall f rest, (k + List.length texts <= f)%nat ->
    parseElements f d (joinWith "," texts ++ String "]" rest) = Some (vs, rest).
Proof.
  induction 1 as [| t v ts vs' [Ht Hr] Hrest IH]; intros Hne f rest Hf;
    [contradiction |].
  destruct f as [| f]; [cbn [List.length] in Hf; lia |].
  rewrite parseElements_unfold. unfold elementsStep.
  cbn [List.length] in Hf.
  destruct ts as [| t2 ts].
  - inversion Hrest; subst. cbn [joinWith]. rewrite (Hr f _) by lia.
    rewrite skipSpace_head by reflexivity. reflexivity.
  - change (joinWith "," (t :: t2 :: ts))
      with (t ++ "," ++ joinWith "," (t2 :: ts)).
    rewrite append_assoc. rewrite (Hr f _) by lia.
    cbn [append]. rewrite skipSpace_head by reflexivity.
    change (("," =? ",")%char) with true. cbv iota.
    assert (Ho : opens (joinWith "," (t2 :: ts)) = true).
    { apply opens_joinWith. inversion Hrest as [| ? ? ? ? [O _] _]; subst. exact O. }
    rewrite (opens_append _ _ Ho).
    rewrite (IH ltac:(discriminate) f rest) by (cbn [List.length] in *; lia).
    reflexivity.
Qed.

Lemma reads_list (d : Z) (k : nat) (texts : list string) (vs : list json) :
  d < maxNestingDepth ->
  Forall2 (reads (d + 1) k) texts vs ->
  reads d (k + List.length texts + 1) (listText texts) (JArray vs).
Proof.
  intros Hd H. split; [reflexivity |].
  intros f rest Hf. destruct f as [| f]; [lia |].
  unfold listText. cbn [append]. rewrite parseValue_unfold. unfold valueStep.
  change (("[" =? "{")%char) with false. rewrite Ascii.eqb_refl. cbv iota.
  assert (Hm : (maxNestingDepth <? d + 1) = false) by (apply Z.ltb_ge; lia).
  rewrite Hm. rewrite append_assoc. cbn [append].
  destruct H as [| t v ts vs' Ht Hrest].
  - reflexivity.
  - assert (Ho : opens (joinWith "," (t :: ts)) = true).
    { apply opens_joinWith. exact (proj1 Ht). }
    rewrite (opens_append _ _ Ho).
    destruct (opens_head _ (String "]" rest) Ho) as (c & tl & E & Hc).
    rewrite (parseElements_reads (d + 1) k (t :: ts) (v :: vs')
               (Forall2_cons _ _ Ht Hrest) ltac:(discriminate) f rest)
      by (cbn [List.length] in *; lia).
    rewrite E, Hc. reflexivity.
Qed.

Lemma parseMembers_reads (d : Z) (k : nat) (members : list (string * string))
    (vs : list json) :
  Forall2 (fun m v => allPlain (fst m) = true /\ reads d k (snd m) v) members vs ->
  members <> [] ->
  forall f rest, (k + List.length members <= f)%nat ->
    parseMembers f d (joinWith "," (map memberText members) ++ String "}" rest)
      = Some (membersOf members vs, rest).
Proof.
  induction 1 as [| [key text] v ms vs' [Hk [Ht Hr]] Hrest IH]; intros Hne f rest Hf;
    [contradiction |].
  cbn [fst snd] in Hk, Ht, Hr.
  destruct f as [| f]; [cbn [List.length] in Hf; lia |].
  rewrite parseMembers_unfold. cbn [List.length] in Hf.
  assert (Step : forall tail,
            membersStep (parseValue f) (parseMembers f) d
              (memberText (key, text) ++ tail)
            = match skipSpace tail with
              | EmptyString => None
              | String c r3 =>
                  if (c =? ",")%char then
                    match parseMembers f d (skipSpace r3) with
                    | Some (ms', r4) => Some ((key, (text, v)) :: ms', r4)
                    | None => None
                    end
                  else if (c =? "}")%char then Some ([(key, (text, v))], r3)
                  else None
              end).
  { intros tail. unfold memberText. cbn [fst snd].
    rewrite (quote_plain key Hk). cbn [append]. unfold membersStep.
    rewrite Ascii.eqb_refl. cbn [negb].
    rewrite !append_assoc. cbn [append].
    rewrite (scanString_plain key _ Hk).
    rewrite skipSpace_head by reflexivity.
    rewrite Ascii.eqb_refl. cbn [negb].
    rewrite (opens_append _ _ Ht). rewrite (Hr f tail) by lia.
    cbv zeta. rewrite consumed_append. reflexivity. }
  destruct ms as [| m2 ms].
  - inversion Hrest; subst. cbn [map joinWith]. rewrite Step.
    rewrite skipSpace_head by reflexivity. reflexivity.
  - change (joinWith "," (map memberText ((key, text) :: m2 :: ms)))
      with (memberText (key, text) ++ "," ++ joinWith "," (map memberText (m2 :: ms))).
    rewrite append_assoc. rewrite Step.
    cbn [append]. rewrite skipSpace_head by reflexivity.
    change (("," =? ",")%char) with true. cbv iota.
    assert (Sk : forall x, skipSpace (joinWith "," (map memberText (m2 :: ms)) ++ x)
                           = joinWith "," (map memberText (m2 :: ms)) ++ x).
    { intros x. apply opens_append. cbn [map]. apply opens_joinWith. reflexivity. }
    rewrite Sk.
    rewrite (IH ltac:(discriminate) f rest) by (cbn [List.length] in *; lia).
    destruct vs' as [| v2 vs']; [inversion Hrest |]. reflexivity.
Qed.

Lemma reads_object (d : Z) (k : nat) (members : list (string * string))
    (vs : list json) :
  d < maxNestingDepth ->
  Forall2 (fun m v => allPlain (fst m) = true /\ reads (d + 1) k (snd m) v) members vs ->
  reads d (k + List.length members + 1) (objectText members)
    (JObject (membersOf members vs)).
Proof.
  intros Hd H. split; [reflexivity |].
  intros f rest Hf. destruct f as [| f]; [lia |].
  unfold objectText. cbn [append]. rewrite parseValue_unfold. unfold valueStep.
  rewrite Ascii.eqb_refl. cbv iota.
  assert (Hm : (maxNestingDepth <? d + 1) = false) by (apply Z.ltb_ge; lia).
  rewrite Hm. rewrite append_assoc. cbn [append].
  destruct H as [| m v ms vs' Hm1 Hrest].
  - reflexivity.
  - assert (Ho : opens (joinWith "," (map memberText (m :: ms))) = true).
    { cbn [map]. apply opens_joinWith. reflexivity. }
    rewrite (opens_append _ _ Ho).
    rewrite (parseMembers_reads (d + 1) k (m :: ms) (v :: vs')
               (Forall2_cons _ _ Hm1 Hrest) ltac:(discriminate) f rest)
      by (cbn [List.length] in *; lia).
    cbn [map joinWith]. destruct ms; reflexivity.
Qed.

Lemma parse_of_reads (k : nat) (text : string) (v : json) :
  reads 0 k text v -> parse text = Ok v.
Proof.
  intros [Ho Hr]. unfold parse.
  pose proof (opens_append text EmptyString Ho) as Sk. rewrite append_nil in Sk.
  rewrite Sk. specialize (Hr k EmptyString (le_n k)). rewrite append_nil in Hr.
  rewrite (parseFuel_enough _ _ _ _ _ Hr).
  destruct text; [discriminate Ho | reflexivity].
Qed.

Lemma reads_more (d : Z) (k k' : nat) (t : string) (v : json) :
  (k <= k')%nat -> reads d k t v -> reads d k' t v.
Proof.
  intros Hk [Ho Hr]. split; [exact Ho |].
  intros f rest Hf. apply Hr. lia.
Qed.

Lemma decodeElements_strings (items : list string) :
  decodeElements EmptyString decodeString (map JString items) = (items, None).
Proof.
  induction items as [| a l IH]; [reflexivity |].
  cbn [map decodeElements decodeString]. rewrite IH. reflexivity.
Qed.

End JsonFacts.

(** ** Transport *)

Module TransportFacts.

Lemma posts_app (a b : list event) : posts (a ++ b) = (posts a ++ posts b)%list.
Proof.
  induction a as [| e a IH]; [reflexivity |].
  destruct e; cbn [app posts]; rewrite IH; reflexivity.
Qed.

Lemma marshalRequest_ok (method : string) (params : slice param) (v : value) :
  sliceValue params = Ok v ->
  marshalRequest (mkRequest 1 "2.0" method params) = Ok (envelope method v).
Proof.
  intros H. unfold marshalRequest. cbn [Params]. rewrite H. reflexivity.
Qed.

Lemma marshalRequest_err (method : string) (params : slice param) (e : error) :
  sliceValue params = Err e ->
  marshalRequest (mkRequest 1 "2.0" method params) = Err e.
Proof.
  intros H. unfold marshalRequest. cbn [Params]. rewrite H. reflexivity.
Qed.

Lemma paramValues_serializable (vs : list value) :
  paramValues (map Serializable vs) = Ok vs.
Proof.
  induction vs as [| v vs IH]; [reflexivity |].
  cbn [map paramValues]. rewrite IH. reflexivity.
Qed.

(** [Call] on parameters the encoder refuses: the error, and nothing
    sent. *)
Lemma Call_refused (rpc : AsimovRPC) (method : string) (params : slice param)
    (w : world) (e : error) :
  sliceValue params = Err e ->
  Call rpc method params w = ((EmptyString, Some e), w).
Proof.
  intros H. unfold Call. rewrite (marshalRequest_err _ _ _ H). reflexivity.
Qed.

(** The events of a [Call] whose request is encoded: the request, then
    the closing of the body when there is a response. *)
Lemma Call_events (rpc : AsimovRPC) (method : string) (params : slice param)
    (w : world) (v : value) :
  sliceValue params = Ok v ->
  exists tail,
    wire (snd (Call rpc method params w))
      = (wire w ++ Posted (postOf rpc (envelope method v)) :: tail)%list
    /\ (tail = [] \/ tail = [BodyClosed]).
Proof.
  intros Hv. unfold Call. rewrite (marshalRequest_ok _ _ _ Hv).
  fold (postOf rpc (envelope method v)).
  destruct (Post (client rpc) (wire w) (postOf rpc (envelope method v)))
    as [[|] msg | [data | msg]].
  - exists [BodyClosed]. cbn. rewrite <- app_assoc. auto.
  - exists []. cbn. auto.
  - exists [BodyClosed].
    destruct (unmarshalResponse data) as [resp | err];
      [destruct (Error resp) |]; destruct (Debug rpc);
      cbn; rewrite <- app_assoc; auto.
  - exists [BodyClosed]. cbn. rewrite <- app_assoc. auto.
Qed.

(** What [Call] returns, by what the client does with the request. *)
Lemma Call_returns (rpc : AsimovRPC) (method : string) (params : slice param)
    (w : world) (v : value) :
  sliceValue params = Ok v ->
  fst (Call rpc method params w)
    = match Post (client rpc) (wire w) (postOf rpc (envelope method v)) with
      | PostFailed _ msg => (EmptyString, Some (TransportError msg))
      | PostDone (ReadFailed msg) => (EmptyString, Some (TransportError msg))
      | PostDone (ReadAll data) => outcome data
      end.
Proof.
  intros Hv. unfold Call. rewrite (marshalRequest_ok _ _ _ Hv).
  fold (postOf rpc (envelope method v)).
  destruct (Post (client rpc) (wire w) (postOf rpc (envelope method v)))
    as [[|] msg | [data | msg]]; try reflexivity.
  unfold outcome.
  destruct (unmarshalResponse data) as [resp | err]; [| reflexivity].
  destruct (Error resp); reflexivity.
Qed.

(** [Call] when the response arrives and its body is read in full. *)
Lemma Call_answered (rpc : AsimovRPC) (method : string) (params : slice param)
    (w : world) (data : string) :
  answers rpc w method params data ->
  fst (Call rpc method params w) = outcome data.
Proof.
  intros (v & Hv & Hp). rewrite (Call_returns _ _ _ _ _ Hv), Hp. reflexivity.
Qed.

(** [Call] for a client that answers with an envelope without error. *)
Lemma Call_of_result (rpc : AsimovRPC) (method : string) (params : slice param)
    (w : world) (data : string) (resp : asimovResponse) :
  answers rpc w method params data ->
  unmarshalResponse data = Ok resp ->
  Error resp = None ->
  fst (Call rpc method params w) = (Result resp, None).
Proof.
  intros Ha Hu He. rewrite (Call_answered _ _ _ _ _ Ha).
  unfold outcome. rewrite Hu, He. reflexivity.
Qed.

(** A client that answers whatever it is sent answers the request of
    [Call], when the encoder accepts the parameters. *)
Lemma answers_any (rpc : AsimovRPC) (w : world) (method : string)
    (params : slice param) (v : value) (data : string) :
  sliceValue params = Ok v ->
  (forall p, Post (client rpc) (wire w) p = PostDone (ReadAll data)) ->
  answers rpc w method params data.
Proof. intros Hv Hp. exists v. split; [exact Hv | apply Hp]. Qed.

(** [New] starts from the default client, the logger on standard error
    and [Debug] unset, and applies the options in order. *)
Lemma New_defaults (DefaultClient : httpClient) (stderrLogger : logger)
    (address : string) :
  New DefaultClient stderrLogger address []
    = mkRPC address DefaultClient stderrLogger false.
Proof. reflexivity. Qed.

Lemma New_options (DefaultClient : httpClient) (stderrLogger : logger)
    (address : string) (c : httpClient) (l : logger) (enabled : bool) :
  New DefaultClient stderrLogger address
      [WithHttpClient c; WithLogger l; WithDebug enabled]
    = mkRPC address c l enabled
  /\ URL (New DefaultClient stderrLogger address [WithDebug enabled]) = address.
Proof. split; reflexivity. Qed.

Lemma envelope_text (method : string) (v : value) :
  envelope method v
    = js "{'id':1,'jsonrpc':'2.0','method':" ++ quote method
        ++ js ",'params':" ++ marshalValue v ++ "}".
Proof.
  unfold envelope. cbn [marshalValue map joinWith fst snd].
  repeat rewrite append_assoc. reflexivity.
Qed.

(** C6, as stated, fails: the body of a call without parameters carries
    [null] where the claim has the list of the parameters. With
    [variadic args] the slice [Call] receives for the arguments [args],
    the claim says that the body is the envelope whose [params] member is
    the array of [args]; it is not when [args] is empty. *)
Lemma Call_request_params_counterexample :
  ~ (forall (rpc : AsimovRPC) (method : string) (args : list value) (w : world),
       posts (wire (snd (Call rpc method (variadic (map Serializable args)) w)))
         = (posts (wire w) ++ [postOf rpc (envelope method (VSlice args))])%list).
Proof.
  intros H. specialize (H (node "null") "net_version" [] idle).
  vm_compute in H. discriminate H.
Qed.

Example Call_request_without_parameters :
  posts (wire (snd (Call (node "null") "net_version" (variadic []) idle)))
    = [ mkPost "http://127.0.0.1:8545" "application/json"
          (js "{'id':1,'jsonrpc':'2.0','method':'net_version','params':null}") ].
Proof. vm_compute. reflexivity. Qed.

(** C6, amended. For every method name and every list of values the
    encoder accepts, the one request [Call] sends has as its body the JSON
    object with the members [id] 1, [jsonrpc] 2.0, [method] the method
    name as a JSON string, and [params]: the JSON array of the given
    parameters in the given order when a slice is passed, and [null] when
    [Call] is given the nil slice, as it is when called without
    parameters. *)
Theorem Call_request_body (rpc : AsimovRPC) (method : string) (w : world) :
  (forall vs : list value,
     posts (wire (snd (Call rpc method (Slice (map Serializable vs)) w)))
       = (posts (wire w) ++ [postOf rpc (envelope method (VSlice vs))])%list
     /\ envelope method (VSlice vs)
        = js "{'id':1,'jsonrpc':'2.0','method':" ++ quote method
            ++ js ",'params':" ++ ("[" ++ joinWith "," (map marshalValue vs) ++ "]")
            ++ "}")
  /\ posts (wire (snd (Call rpc method NilSlice w)))
       = (posts (wire w) ++ [postOf rpc (envelope method VNil)])%list
  /\ envelope method VNil
       = js "{'id':1,'jsonrpc':'2.0','method':" ++ quote method
           ++ js ",'params':null}".
Proof.
  assert (P : forall params v, sliceValue params = Ok v ->
            posts (wire (snd (Call rpc method params w)))
              = (posts (wire w) ++ [postOf rpc (envelope method v)])%list).
  { intros params v Hv.
    destruct (Call_events rpc method params w v Hv) as (tail & E & [-> | ->]);
      rewrite E, posts_app; reflexivity. }
  repeat split.
  - apply P. cbn [sliceValue]. rewrite paramValues_serializable. reflexivity.
  - apply envelope_text.
  - apply P. reflexivity.
  - apply envelope_text.
Qed.


(** C9. Two clients that differ in the [Debug] flag and in the logger
    only, started on worlds that differ in what has been printed only,
    return the same value and the same error from [Call] and send the
    same events; so [WithDebug] and [WithLogger] change neither what
    [Call] returns nor what it sends. *)
Theorem Call_debug_noninterference (method : string) (params : slice param) :
  (forall (address : string) (c : httpClient) (log1 log2 : logger)
          (debug1 debug2 : bool) (sent : list event) (out1 out2 : list string),
     fst (Call (mkRPC address c log1 debug1) method params (mkWorld sent out1))
       = fst (Call (mkRPC address c log2 debug2) method params (mkWorld sent out2))
     /\ wire (snd (Call (mkRPC address c log1 debug1) method params
                     (mkWorld sent out1)))
        = wire (snd (Call (mkRPC address c log2 debug2) method params
                       (mkWorld sent out2))))
  /\ (forall (rpc : AsimovRPC) (enabled : bool) (l : logger) (w : world),
        fst (Call (WithLogger l (WithDebug enabled rpc)) method params w)
          = fst (Call rpc method params w)
        /\ wire (snd (Call (WithLogger l (WithDebug enabled rpc)) method params w))
           = wire (snd (Call rpc method params w))).
Proof.
  assert (Two : forall address c log1 log2 debug1 debug2 sent out1 out2,
            fst (Call (mkRPC address c log1 debug1) method params (mkWorld sent out1))
              = fst (Call (mkRPC address c log2 debug2) method params
                       (mkWorld sent out2))
            /\ wire (snd (Call (mkRPC address c log1 debug1) method params
                            (mkWorld sent out1)))
               = wire (snd (Call (mkRPC address c log2 debug2) method params
                              (mkWorld sent out2)))).
  { intros address c log1 log2 debug1 debug2 sent out1 out2.
    unfold Call. cbn [url client log Debug wire].
    destruct (marshalRequest (mkRequest 1 "2.0" method params)) as [body | err];
      [| split; reflexivity].
    destruct (Post c sent (mkPost address "application/json" body))
      as [[|] msg | [data | msg]]; try (split; reflexivity).
    destruct (unmarshalResponse data) as [resp | err];
      [destruct (Error resp) |]; destruct debug1, debug2; split; reflexivity. }
  split; [exact Two |].
  intros [address c l0 d] enabled l [sent out].
  apply (Two address c l l0 enabled d sent out out).
Qed.

(** C10. What [Call] returns for a body that decodes as an envelope is
    determined by the envelope's [result] and [error]: two responses whose
    envelopes agree on these two members give the same value and the same
    error, whatever their [id] and [jsonrpc] members are, and that outcome
    is the error object when there is one and the result otherwise. *)
Theorem Call_ignores_id_and_version (rpc1 rpc2 : AsimovRPC) (method : string)
    (params : slice param) (w1 w2 : world) (data1 data2 : string)
    (resp1 resp2 : asimovResponse) :
  answers rpc1 w1 method params data1 ->
  answers rpc2 w2 method params data2 ->
  unmarshalResponse data1 = Ok resp1 ->
  unmarshalResponse data2 = Ok resp2 ->
  Result resp1 = Result resp2 ->
  Error resp1 = Error resp2 ->
  fst (Call rpc1 method params w1) = fst (Call rpc2 method params w2)
  /\ fst (Call rpc1 method params w1)
     = match Error resp1 with
       | Some e => (EmptyString, Some (RemoteError e))
       | None => (Result resp1, None)
       end.
Proof.
  intros A1 A2 U1 U2 HR HE.
  rewrite (Call_answered _ _ _ _ _ A1), (Call_answered _ _ _ _ _ A2).
  unfold outcome. rewrite U1, U2, HR, HE. split; reflexivity.
Qed.

Lemma Call_ignores_id_and_version_witness :
  let rpc1 := node "{'jsonrpc':'2.0','id':1,'result':'0x10'}" in
  let rpc2 := node "{'jsonrpc':'1.0','id':7,'result':'0x10'}" in
  fst (Call rpc1 "flow_blockNumber" NilSlice idle)
    = fst (Call rpc2 "flow_blockNumber" NilSlice idle)
  /\ fst (Call rpc1 "flow_blockNumber" NilSlice idle) = (js "'0x10'", None).
Proof.
  cbv zeta.
  apply (Call_ignores_id_and_version
           (node "{'jsonrpc':'2.0','id':1,'result':'0x10'}")
           (node "{'jsonrpc':'1.0','id':7,'result':'0x10'}")
           "flow_blockNumber" NilSlice idle idle
           (js "{'jsonrpc':'2.0','id':1,'result':'0x10'}")
           (js "{'jsonrpc':'1.0','id':7,'result':'0x10'}")
           (mkResponse 1 "2.0" (js "'0x10'") None)
           (mkResponse 7 "1.0" (js "'0x10'") None));
    try reflexivity; (exists VNil; split; reflexivity).
Defined.

End TransportFacts.

(** ** Method facade *)

Module FacadeFacts.
Import JsonFacts TransportFacts.

(** Unfolds an operation down to its [Call]. *)
Ltac unfold_operation :=
  cbv beta iota delta
    [run replying Web3ClientVersion Web3Sha3 NetVersion NetListening NetPeerCount
     AsimovProtocolVersion AsimovSyncing AsimovCoinbase AsimovMining AsimovHashrate
     AsimovGasPrice AsimovAccounts AsimovBlockNumber AsimovGetBalance
     AsimovGetStorageAt AsimovGetTransactionCount
     AsimovGetBlockTransactionCountByHash AsimovGetBlockTransactionCountByNumber
     AsimovGetUncleCountByBlockHash AsimovGetUncleCountByBlockNumber AsimovGetCode
     AsimovSign AsimovSendTransaction AsimovSendRawTransaction AsimovCall
     AsimovEstimateGas AsimovGetBlockByHash AsimovGetBlockByNumber
     AsimovGetTransactionByHash AsimovGetTransactionByBlockHashAndIndex
     AsimovGetTransactionByBlockNumberAndIndex AsimovGetTransactionReceipt
     AsimovGetCompilers AsimovNewFilter AsimovNewBlockFilter
     AsimovNewPendingTransactionFilter AsimovUninstallFilter AsimovGetFilterChanges
     AsimovGetFilterLogs AsimovGetLogs getBlock getTransaction intCall bigCall
     callVar call RawCall].

(** Replaces the [Call] of the goal by the value, error and world it is
    known to return. *)
Ltac resolve_call H :=
  match type of H with
  | fst (Call ?rpc ?m ?ps ?w) = _ =>
      destruct (Call rpc m ps w) as [[? ?] ?]; cbn [fst] in H;
      injection H as -> ->
  end.

(** An error of [Call] leaves an operation through its error result, next
    to the value the operation held before the call. *)
Lemma run_Call_failed {T FilterParams : Type} (valueOfT : T -> value)
    (valueOfFilterParams : FilterParams -> value) (op : operation T FilterParams)
    (rpc : AsimovRPC) (w : world) (result : string) (e : error) :
  fst (Call rpc (fst (requestOf valueOfT valueOfFilterParams op))
         (snd (requestOf valueOfT valueOfFilterParams op)) w) = (result, Some e) ->
  fst (run valueOfT valueOfFilterParams op rpc w) = (initialReply op, Some e).
Proof.
  intros H.
  destruct op; cbn [requestOf fst snd] in H; unfold_operation;
    resolve_call H; reflexivity.
Qed.

(** Every request of the facade is one the encoder accepts. *)
Lemma facade_request_encodes {T FilterParams : Type} (valueOfT : T -> value)
    (valueOfFilterParams : FilterParams -> value) (op : operation T FilterParams) :
  exists v, sliceValue (snd (requestOf valueOfT valueOfFilterParams op)) = Ok v.
Proof.
  destruct op; cbn [requestOf snd variadic sliceValue paramValues str flag];
    eexists; reflexivity.
Qed.

(** An operation acts on the world through its one [Call]. *)
Lemma run_world {T FilterParams : Type} (valueOfT : T -> value)
    (valueOfFilterParams : FilterParams -> value) (op : operation T FilterParams)
    (rpc : AsimovRPC) (w : world) :
  snd (run valueOfT valueOfFilterParams op rpc w)
    = snd (Call rpc (fst (requestOf valueOfT valueOfFilterParams op))
             (snd (requestOf valueOfT valueOfFilterParams op)) w).
Proof.
  destruct op; cbn [requestOf fst snd]; unfold_operation;
    match goal with
    | |- context [Call ?r ?m ?ps ?w0] => destruct (Call r m ps w0) as [[? [? |]] ?]
    end;
    cbv beta iota zeta; try reflexivity;
    repeat match goal with
           | |- context [bytesEqual ?a ?b] => destruct (bytesEqual a b)
           | |- context [goPair ?z ?r] => destruct (goPair z r)
           | |- context [Unmarshal ?d ?r ?v] => destruct (Unmarshal d r v) as [? [? |]]
           | |- context [unmarshalProxyBlock ?r (if ?b then _ else _)] =>
               destruct b; cbv beta iota delta [unmarshalProxyBlock]
           end;
    reflexivity.
Qed.

(** C1. For every operation of the facade and every response to its
    request whose body decodes as an envelope with an error object, the
    operation returns that object as its error, code and message as
    decoded, and the value next to it is the one the operation held before
    the call (an empty string, zero, false, an empty list, a nil pointer,
    or the untouched record a transaction lookup allocates): nothing of
    the response is in it. For the crafted envelope of the spec the error
    is the one with code -32000 and message x. *)
Theorem remote_error_surfaced {T FilterParams : Type} (valueOfT : T -> value)
    (valueOfFilterParams : FilterParams -> value) (op : operation T FilterParams) :
  (forall (rpc : AsimovRPC) (w : world) (data : string) (resp : asimovResponse)
          (e : AsimovError),
     answers rpc w (fst (requestOf valueOfT valueOfFilterParams op))
       (snd (requestOf valueOfT valueOfFilterParams op)) data ->
     unmarshalResponse data = Ok resp ->
     Error resp = Some e ->
     fst (run valueOfT valueOfFilterParams op rpc w)
       = (initialReply op, Some (RemoteError e)))
  /\ fst (run valueOfT valueOfFilterParams op (node craftedError) idle)
     = (initialReply op, Some (RemoteError (mkAsimovError (-32000) "x"))).
Proof.
  assert (G : forall rpc w data resp e,
            answers rpc w (fst (requestOf valueOfT valueOfFilterParams op))
              (snd (requestOf valueOfT valueOfFilterParams op)) data ->
            unmarshalResponse data = Ok resp ->
            Error resp = Some e ->
            fst (run valueOfT valueOfFilterParams op rpc w)
              = (initialReply op, Some (RemoteError e))).
  { intros rpc w data resp e Ha Hu He.
    apply (run_Call_failed valueOfT valueOfFilterParams op rpc w EmptyString).
    rewrite (Call_answered _ _ _ _ _ Ha). unfold outcome.
    rewrite Hu, He. reflexivity. }
  split; [exact G |].
  destruct (facade_request_encodes valueOfT valueOfFilterParams op) as [v Hv].
  apply (G (node craftedError) idle (js craftedError)
           (mkResponse 1 "2.0" EmptyString (Some (mkAsimovError (-32000) "x")))).
  - apply (answers_any _ _ _ _ v); [exact Hv | reflexivity].
  - vm_compute. reflexivity.
  - reflexivity.
Qed.

Lemma remote_error_surfaced_witness :
  fst (run (fun _ : unit => VNil) (fun _ : unit => VNil)
         (OpAsimovGetTransactionByHash "0xb903239f8543d04b5dc1ba6579132b143087c6")
         (node "{'jsonrpc':'2.0','id':7,'error':{'code':3,'message':'execution reverted'}}")
         idle)
    = (TransactionReply (Some zeroTransaction),
       Some (RemoteError (mkAsimovError 3 "execution reverted"))).
Proof.
  apply (proj1 (remote_error_surfaced (fun _ : unit => VNil) (fun _ : unit => VNil)
                  (OpAsimovGetTransactionByHash
                     "0xb903239f8543d04b5dc1ba6579132b143087c6"))
           (node "{'jsonrpc':'2.0','id':7,'error':{'code':3,'message':'execution reverted'}}")
           idle
           (js "{'jsonrpc':'2.0','id':7,'error':{'code':3,'message':'execution reverted'}}")
           (mkResponse 7 "2.0" EmptyString (Some (mkAsimovError 3 "execution reverted")))
           (mkAsimovError 3 "execution reverted")).
  - eexists. split; reflexivity.
  - vm_compute. reflexivity.
  - reflexivity.
Defined.

(** What an operation makes of a [Call] that returned a result. *)
Lemma getBlock_of_result (rpc : AsimovRPC) (method : string) (withTransactions : bool)
    (params : slice param) (w : world) (result : string) :
  fst (Call rpc method params w) = (result, None) ->
  fst (getBlock rpc method withTransactions params w)
    = if bytesEqual result "null" then (None, None)
      else if withTransactions then
        match Unmarshal decodeBlockWithTransactions result (zeroBlock NilSlice) with
        | (p, None) => (Some (withTransactionList TransactionRecords p), None)
        | (_, Some e) => (None, Some e)
        end
      else
        match Unmarshal decodeBlockWithoutTransactions result (zeroBlock NilSlice) with
        | (p, None) => (Some (withTransactionList TransactionHashes p), None)
        | (_, Some e) => (None, Some e)
        end.
Proof.
  intros H. unfold_operation. resolve_call H.
  destruct (bytesEqual result "null"); [reflexivity |].
  destruct withTransactions; cbn [unmarshalProxyBlock].
  - destruct (Unmarshal decodeBlockWithTransactions result (zeroBlock NilSlice))
      as [p [e |]]; reflexivity.
  - destruct (Unmarshal decodeBlockWithoutTransactions result (zeroBlock NilSlice))
      as [p [e |]]; reflexivity.
Qed.

Lemma AsimovSyncing_of_result (rpc : AsimovRPC) (w : world) (result : string) :
  fst (Call rpc "flow_syncing" (variadic []) w) = (result, None) ->
  fst (AsimovSyncing rpc w)
    = if bytesEqual result "false" then (Some zeroSyncing, None)
      else let (s, err) := Unmarshal decodeSyncing result zeroSyncing in (Some s, err).
Proof.
  intros H. unfold_operation. resolve_call H.
  destruct (bytesEqual result "false"); [reflexivity |]. cbv zeta.
  destruct (Unmarshal decodeSyncing result zeroSyncing); reflexivity.
Qed.

(** C3. When the response to a block lookup decodes as an envelope
    without error whose result is the literal [null], the lookup, by hash
    or by number, returns the nil block and the nil error: an absent
    block, not a block of zero values. *)
Theorem block_lookup_null_is_absent (rpc : AsimovRPC) (w : world) (data : string)
    (resp : asimovResponse) (hash : string) (number : Z) (withTransactions : bool) :
  unmarshalResponse data = Ok resp ->
  Error resp = None ->
  Result resp = "null" ->
  (answers rpc w "flow_getBlockByHash"
     (variadic [str hash; flag withTransactions]) data ->
   fst (AsimovGetBlockByHash rpc hash withTransactions w) = (None, None))
  /\ (answers rpc w "flow_getBlockByNumber"
        (variadic [str (Hex.IntToHex number); flag withTransactions]) data ->
      fst (AsimovGetBlockByNumber rpc number withTransactions w) = (None, None)).
Proof.
  intros Hu He Hr.
  split; intros Ha; unfold AsimovGetBlockByHash, AsimovGetBlockByNumber;
    rewrite (getBlock_of_result _ _ _ _ _ _ (Call_of_result _ _ _ _ _ _ Ha Hu He));
    rewrite Hr; reflexivity.
Qed.

Lemma block_lookup_null_is_absent_witness :
  fst (AsimovGetBlockByHash (node "{'jsonrpc':'2.0','id':1,'result':null}")
         "0xe670ec64341771606e55d6b4ca35a1a6b75ee3d5145a99d05921026d1527331" true idle)
    = (None, None)
  /\ fst (AsimovGetBlockByNumber (node "{'jsonrpc':'2.0','id':1,'result':null}")
            436 true idle)
     = (None, None).
Proof.
  destruct (block_lookup_null_is_absent
              (node "{'jsonrpc':'2.0','id':1,'result':null}") idle
              (js "{'jsonrpc':'2.0','id':1,'result':null}")
              (mkResponse 1 "2.0" "null" None)
              "0xe670ec64341771606e55d6b4ca35a1a6b75ee3d5145a99d05921026d1527331"
              436 true
              ltac:(vm_compute; reflexivity) eq_refl eq_refl) as [ByHash ByNumber].
  split.
  - apply ByHash. eexists. split; reflexivity.
  - apply ByNumber. eexists. split; reflexivity.
Defined.

(** C4. When the response to [flow_syncing] decodes as an envelope without
    error: a result that is the literal [false] gives the status that is
    not syncing, with every progress field zero, and no error; any other
    result is decoded as a progress object, and the object of the spec
    decodes to the progress fields 0, 5 and 10. *)
Theorem syncing_decoder (rpc : AsimovRPC) (w : world) (data : string)
    (resp : asimovResponse) :
  answers rpc w "flow_syncing" (variadic []) data ->
  unmarshalResponse data = Ok resp ->
  Error resp = None ->
  (Result resp = "false" ->
     fst (AsimovSyncing rpc w) = (Some (mkSyncing false 0 0 0), None))
  /\ (Result resp <> "false" ->
        fst (AsimovSyncing rpc w)
          = let (s, err) := Unmarshal decodeSyncing (Result resp) zeroSyncing in
            (Some s, err))
  /\ Unmarshal decodeSyncing
       (js "{'startingBlock':'0x0','currentBlock':'0x5','highestBlock':'0xa'}")
       zeroSyncing
     = (mkSyncing true 0 5 10, None).
Proof.
  intros Ha Hu He.
  assert (S : fst (AsimovSyncing rpc w)
              = if bytesEqual (Result resp) "false" then (Some zeroSyncing, None)
                else let (s, err) := Unmarshal decodeSyncing (Result resp) zeroSyncing in
                     (Some s, err)).
  { apply AsimovSyncing_of_result. exact (Call_of_result _ _ _ _ _ _ Ha Hu He). }
  split; [| split].
  - intros Hr. rewrite S, Hr. reflexivity.
  - intros Hr. rewrite S. unfold bytesEqual.
    destruct (String.eqb_spec (Result resp) "false") as [E | _];
      [contradiction | reflexivity].
  - vm_compute. reflexivity.
Qed.

Lemma syncing_decoder_witness :
  fst (AsimovSyncing (node "{'jsonrpc':'2.0','id':1,'result':false}") idle)
    = (Some (mkSyncing false 0 0 0), None).
Proof.
  apply (syncing_decoder (node "{'jsonrpc':'2.0','id':1,'result':false}") idle
           (js "{'jsonrpc':'2.0','id':1,'result':false}")
           (mkResponse 1 "2.0" "false" None)).
  - eexists. split; reflexivity.
  - vm_compute. reflexivity.
  - reflexivity.
  - reflexivity.
Defined.

(** White space around the literal is not part of the result. *)
Example syncing_false_between_spaces :
  fst (AsimovSyncing (node "{ 'id' : 1, 'jsonrpc' : '2.0', 'result' : false }") idle)
    = (Some (mkSyncing false 0 0 0), None).
Proof. vm_compute. reflexivity. Qed.

Example syncing_in_progress :
  fst (AsimovSyncing
         (node "{'jsonrpc':'2.0','id':1,'result':{'startingBlock':'0x0','currentBlock':'0x5','highestBlock':'0xa'}}")
         idle)
    = (Some (mkSyncing true 0 5 10), None).
Proof. vm_compute. reflexivity. Qed.

(** The texts of the fixture payloads and what they decode to. *)
Lemma reads_recordText (d : Z) (r : string * string) :
  d < maxNestingDepth -> plainRecord r = true ->
  reads d 4 (recordText r) (recordJson r).
Proof.
  intros Hd Hp. apply andb_prop in Hp. destruct Hp as [Hf Ht].
  apply (reads_object d 1 [("from", quote (fst r)); ("to", quote (snd r))]
           [JString (fst r); JString (snd r)] Hd).
  apply Forall2_cons; [| apply Forall2_cons; [| apply Forall2_nil]];
    (split; [reflexivity |]); cbn [fst snd]; apply reads_quote; assumption.
Qed.

Lemma reads_recordsText (d : Z) (records : list (string * string)) :
  d + 1 < maxNestingDepth -> forallb plainRecord records = true ->
  reads d (4 + List.length records + 1) (recordsText records)
    (JArray (map recordJson records)).
Proof.
  intros Hd Hp. unfold recordsText.
  rewrite <- (length_map recordText records).
  apply reads_list; [lia |].
  induction records as [| r rs IH]; [constructor |].
  cbn [forallb] in Hp. apply andb_prop in Hp. destruct Hp as [Hr Hrs].
  cbn [map]. constructor; [apply reads_recordText; [lia | exact Hr] | exact (IH Hrs)].
Qed.

Lemma reads_arrayText (d : Z) (items : list string) :
  d < maxNestingDepth -> forallb allPlain items = true ->
  reads d (1 + List.length items + 1) (arrayText items) (JArray (map JString items)).
Proof.
  intros Hd Hp. change (arrayText items) with (listText (map quote items)).
  rewrite <- (length_map quote items).
  apply reads_list; [exact Hd |].
  induction items as [| a l IH]; [constructor |].
  cbn [forallb] in Hp. apply andb_prop in Hp. destruct Hp as [Ha Hl].
  cbn [map]. constructor; [apply reads_quote; exact Ha | exact (IH Hl)].
Qed.

Lemma parse_blockPayload (k : nat) (hash transactions : string) (v : json) :
  allPlain hash = true ->
  reads 1 k transactions v ->
  parse (blockPayload hash transactions)
    = Ok (JObject (membersOf [("hash", quote hash); ("transactions", transactions)]
                     [JString hash; v])).
Proof.
  intros Hh Hr.
  apply (parse_of_reads (S k + 2 + 1)).
  apply (reads_object 0 (S k)); [reflexivity |].
  apply Forall2_cons; [| apply Forall2_cons; [| apply Forall2_nil]];
    (split; [reflexivity |]); cbn [fst snd].
  - apply (reads_more _ 1); [lia | apply reads_quote; exact Hh].
  - apply (reads_more _ k); [lia | exact Hr].
Qed.

Lemma decodeMembers_block {X : Type} (dec : decoder X) (hash text : string)
    (v : json) (x0 x : X) (e : option error) :
  dec v x0 = (x, e) ->
  decodeMembers (blockFields dec)
    (membersOf [("hash", quote hash); ("transactions", text)] [JString hash; v])
    (zeroBlock x0)
  = (mkBlock hash 0 "" "" 0 0 0 0 x, e).
Proof.
  intros H. unfold membersOf. cbn [combine map fst snd].
  cbn [decodeMembers].
  change (findField "hash" (blockFields dec))
    with (Some (fieldOf "hash" (@decodeString) (@Hash X)
      (fun a b => mkBlock a (Number b) (ParentHash b) (Miner b) (Timestamp b)
                    (Size b) (GasLimit b) (BlockGasUsed b) (Transactions b)))).
  change (findField "transactions" (blockFields dec))
    with (Some (fieldOf "transactions" dec (@Transactions X)
      (fun a b => withTransactionList (fun _ => a) b))).
  cbn. rewrite H. destruct e; reflexivity.
Qed.

Lemma decodeElements_records (records : list (string * string)) :
  decodeElements zeroTransaction decodeTransaction (map recordJson records)
    = (map recordOf records, None).
Proof.
  induction records as [| r rs IH]; [reflexivity |].
  cbn [map decodeElements]. rewrite IH. reflexivity.
Qed.

Lemma decodeElements_mismatch {A : Type} (zero : A) (dec : decoder A)
    (v : json) (vs : list json) (e : error) :
  dec v zero = (zero, Some e) ->
  exists l, decodeElements zero dec (v :: vs) = (l, Some e).
Proof.
  intros H. cbn [decodeElements]. rewrite H.
  destruct (decodeElements zero dec vs) as [l e']. eexists. reflexivity.
Qed.

(** C5. [getBlock] picks the decoder from [withTransactions] alone, and
    the transaction list of the block it returns holds what that decoder
    reads. For a payload whose transaction list is an array of full
    records, the block returned under the flag holds exactly these
    records, in their order; without the flag the same payload is a type
    error and no block (or, the array being empty, a block with an empty
    list of hashes). For a payload whose transaction list is an array of
    hash strings, the block returned without the flag holds exactly these
    hashes, in their order; under the flag the same payload is a type
    error and no block (or, the array being empty, a block with an empty
    list of records). And whatever a result other than [null] holds, the
    outcome is that of the decoder the flag names, so that a block returned
    under the flag carries records and one returned without it carries
    hashes. *)
Theorem block_decoder_follows_flag (rpc : AsimovRPC) (method : string)
    (withTransactions : bool) (params : slice param) (w : world) (hash : string) :
  allPlain hash = true ->
  (forall records : list (string * string),
     forallb plainRecord records = true ->
     fst (Call rpc method params w) = (blockPayload hash (recordsText records), None) ->
     if withTransactions then
       fst (getBlock rpc method withTransactions params w)
         = (Some (blockHolding hash
                    (TransactionRecords (Slice (map recordOf records)))), None)
     else
       match records with
       | [] =>
           fst (getBlock rpc method withTransactions params w)
             = (Some (blockHolding hash (TransactionHashes (Slice []))), None)
       | _ :: _ =>
           exists msg,
             fst (getBlock rpc method withTransactions params w)
               = (None, Some (UnmarshalTypeError msg))
       end)
  /\ (forall hashes : list string,
        forallb allPlain hashes = true ->
        fst (Call rpc method params w) = (blockPayload hash (arrayText hashes), None) ->
        if withTransactions then
          match hashes with
          | [] =>
              fst (getBlock rpc method withTransactions params w)
                = (Some (blockHolding hash (TransactionRecords (Slice []))), None)
          | _ :: _ =>
              exists msg,
                fst (getBlock rpc method withTransactions params w)
                  = (None, Some (UnmarshalTypeError msg))
          end
        else
          fst (getBlock rpc method withTransactions params w)
            = (Some (blockHolding hash (TransactionHashes (Slice hashes))), None))
  /\ (forall result : string,
        fst (Call rpc method params w) = (result, None) ->
        result <> "null" ->
        fst (getBlock rpc method withTransactions params w)
          = (if withTransactions then
               match Unmarshal decodeBlockWithTransactions result (zeroBlock NilSlice) with
               | (p, None) => (Some (withTransactionList TransactionRecords p), None)
               | (_, Some e) => (None, Some e)
               end
             else
               match Unmarshal decodeBlockWithoutTransactions result (zeroBlock NilSlice) with
               | (p, None) => (Some (withTransactionList TransactionHashes p), None)
               | (_, Some e) => (None, Some e)
               end)
        /\ forall block : Block,
             fst (getBlock rpc method withTransactions params w) = (Some block, None) ->
             match Transactions block with
             | TransactionRecords _ => withTransactions = true
             | TransactionHashes _ => withTransactions = false
             end).
Proof.
  intros Hh. split; [| split].
  - intros records Hp H.
    rewrite (getBlock_of_result rpc method withTransactions params w _ H).
    change (bytesEqual (blockPayload hash (recordsText records)) "null") with false.
    cbv iota. unfold Unmarshal.
    rewrite (parse_blockPayload _ hash _ _ Hh
               (reads_recordsText 1 records ltac:(reflexivity) Hp)).
    destruct withTransactions.
    + unfold decodeBlockWithTransactions, decodeStruct.
      rewrite (decodeMembers_block _ hash _ _ NilSlice
                 (Slice (map recordOf records)) None);
        [reflexivity |].
      unfold decodeSlice. rewrite decodeElements_records. reflexivity.
    + unfold decodeBlockWithoutTransactions, decodeStruct, decodeStrings.
      destruct records as [| r rs].
      * rewrite (decodeMembers_block _ hash _ _ NilSlice (Slice []) None);
          reflexivity.
      * destruct (decodeElements_mismatch EmptyString decodeString
                    (recordJson r) (map recordJson rs)
                    (typeError (recordJson r) "string") eq_refl) as [l El].
        rewrite (decodeMembers_block _ hash _ _ NilSlice (Slice l)
                   (Some (typeError (recordJson r) "string")));
          [eexists; reflexivity |].
        unfold decodeSlice. cbn [map]. rewrite El. reflexivity.
  - intros hashes Hp H.
    rewrite (getBlock_of_result rpc method withTransactions params w _ H).
    change (bytesEqual (blockPayload hash (arrayText hashes)) "null") with false.
    cbv iota. unfold Unmarshal.
    rewrite (parse_blockPayload _ hash _ _ Hh
               (reads_arrayText 1 hashes ltac:(reflexivity) Hp)).
    destruct withTransactions.
    + unfold decodeBlockWithTransactions, decodeStruct.
      destruct hashes as [| h hs].
      * rewrite (decodeMembers_block _ hash _ _ NilSlice (Slice []) None);
          reflexivity.
      * destruct (decodeElements_mismatch zeroTransaction decodeTransaction
                    (JString h) (map JString hs)
                    (typeError (JString h) "asimovrpc.Transaction") eq_refl)
          as [l El].
        rewrite (decodeMembers_block _ hash _ _ NilSlice (Slice l)
                   (Some (typeError (JString h) "asimovrpc.Transaction")));
          [eexists; reflexivity |].
        unfold decodeSlice. cbn [map]. rewrite El. reflexivity.
    + unfold decodeBlockWithoutTransactions, decodeStruct, decodeStrings.
      rewrite (decodeMembers_block _ hash _ _ NilSlice (Slice hashes) None);
        [reflexivity |].
      unfold decodeSlice.
      rewrite decodeElements_strings. reflexivity.
  - intros result H Hn.
    assert (G := getBlock_of_result rpc method withTransactions params w result H).
    unfold bytesEqual in G.
    destruct (String.eqb_spec result "null") as [E | _]; [contradiction |].
    split; [exact G |].
    intros block Hb. rewrite G in Hb. destruct withTransactions.
    + destruct (Unmarshal decodeBlockWithTransactions result (zeroBlock NilSlice))
        as [p [e |]]; [discriminate Hb |].
      injection Hb as <-. reflexivity.
    + destruct (Unmarshal decodeBlockWithoutTransactions result (zeroBlock NilSlice))
        as [p [e |]]; [discriminate Hb |].
      injection Hb as <-. reflexivity.
Qed.

Lemma block_decoder_follows_flag_witness :
  fst (getBlock
         (node "{'jsonrpc':'2.0','id':1,'result':{'hash':'0x1','transactions':[{'from':'0xa7','to':'0xf0'},{'from':'0x4e','to':'0xa7'}]}}")
         "flow_getBlockByHash" true (variadic [str "0x1"; flag true]) idle)
    = (Some (mkBlock "0x1" 0 "" "" 0 0 0 0
               (TransactionRecords
                  (Slice [mkTransaction "0xa7" "0xf0" 0 0 0;
                          mkTransaction "0x4e" "0xa7" 0 0 0]))),
       None)
  /\ fst (getBlock
            (node "{'jsonrpc':'2.0','id':1,'result':{'hash':'0x1','transactions':['0xc6ef2f','0x88df01']}}")
            "flow_getBlockByHash" false (variadic [str "0x1"; flag false]) idle)
     = (Some (mkBlock "0x1" 0 "" "" 0 0 0 0
                (TransactionHashes (Slice ["0xc6ef2f"; "0x88df01"]))),
        None).
Proof.
  split.
  - apply (proj1 (block_decoder_follows_flag
                    (node "{'jsonrpc':'2.0','id':1,'result':{'hash':'0x1','transactions':[{'from':'0xa7','to':'0xf0'},{'from':'0x4e','to':'0xa7'}]}}")
                    "flow_getBlockByHash" true (variadic [str "0x1"; flag true]) idle
                    "0x1" eq_refl)
             [("0xa7", "0xf0"); ("0x4e", "0xa7")] eq_refl).
    vm_compute. reflexivity.
  - apply (proj1 (proj2 (block_decoder_follows_flag
                    (node "{'jsonrpc':'2.0','id':1,'result':{'hash':'0x1','transactions':['0xc6ef2f','0x88df01']}}")
                    "flow_getBlockByHash" false (variadic [str "0x1"; flag false]) idle
                    "0x1" eq_refl))
             ["0xc6ef2f"; "0x88df01"] eq_refl).
    vm_compute. reflexivity.
Defined.

(** Two fixture payloads that differ in the transaction list only. *)
Example block_with_full_transactions :
  fst (AsimovGetBlockByHash
         (node "{'jsonrpc':'2.0','id':1,'result':{'hash':'0x1','number':'0x1b4','miner':'0x4e','transactions':[{'from':'0xa7','to':'0xf0','value':'0xde0b6b3a7640000','gas':'0xc350'}]}}")
         "0x1" true idle)
    = (Some (mkBlock "0x1" 436 "" "0x4e" 0 0 0 0
               (TransactionRecords
                  (Slice [mkTransaction "0xa7" "0xf0" 1000000000000000000 50000 0]))),
       None).
Proof. vm_compute. reflexivity. Qed.

Example block_with_transaction_hashes :
  fst (AsimovGetBlockByHash
         (node "{'jsonrpc':'2.0','id':1,'result':{'hash':'0x1','number':'0x1b4','miner':'0x4e','transactions':['0xc6ef2f','0x88df01']}}")
         "0x1" false idle)
    = (Some (mkBlock "0x1" 436 "" "0x4e" 0 0 0 0
               (TransactionHashes (Slice ["0xc6ef2f"; "0x88df01"]))),
       None).
Proof. vm_compute. reflexivity. Qed.

(** The flag and not the payload decides: hashes under the flag are a
    decoding error, not a block of hashes. *)
Example block_hashes_under_the_flag :
  exists msg,
    fst (AsimovGetBlockByHash
           (node "{'jsonrpc':'2.0','id':1,'result':{'hash':'0x1','transactions':['0xc6ef2f']}}")
           "0x1" true idle)
      = (None, Some (UnmarshalTypeError msg)).
Proof. eexists. vm_compute. reflexivity. Qed.

(** The balance fixture of the spec, and the coin unit. *)
Example balance_of_one_coin :
  fst (AsimovGetBalance (node "{'jsonrpc':'2.0','id':1,'result':'0xde0b6b3a7640000'}")
         "0x407d73d8a49eeb85d32cf465507dd71d507100c1" "latest" idle)
    = (Asim1, None)
  /\ Asim1 = 10 ^ 18.
Proof. vm_compute. split; reflexivity. Qed.

(** C2 at its failing inputs: for a result that is the literal [null] the
    transaction lookup and the receipt lookup return a record of zero
    values and no error, exactly what they return for an empty object,
    where the block lookup returns no block. *)
Lemma lookup_null_gives_zero_record :
  let absent := node "{'jsonrpc':'2.0','id':1,'result':null}" in
  let empty := node "{'jsonrpc':'2.0','id':1,'result':{}}" in
  fst (AsimovGetTransactionByHash absent "0x88df01" idle) = (Some zeroTransaction, None)
  /\ fst (AsimovGetTransactionByHash empty "0x88df01" idle) = (Some zeroTransaction, None)
  /\ fst (AsimovGetTransactionReceipt absent "0x88df01" idle) = (Some zeroReceipt, None)
  /\ fst (AsimovGetTransactionReceipt empty "0x88df01" idle) = (Some zeroReceipt, None)
  /\ fst (AsimovGetBlockByHash absent "0x88df01" true idle) = (None, None).
Proof. vm_compute. repeat split; reflexivity. Qed.

(** [getTransaction] never returns the nil pointer, whatever the response
    is, and the receipt lookup never returns it without an error. *)
Lemma transaction_lookup_never_absent (rpc : AsimovRPC) (method : string)
    (params : slice param) (w : world) :
  exists t, fst (fst (getTransaction rpc method params w)) = Some t.
Proof.
  unfold getTransaction.
  destruct (callVar decodeTransaction rpc method zeroTransaction params w)
    as [[t err] w'].
  exists t. reflexivity.
Qed.

Lemma receipt_lookup_never_absent (rpc : AsimovRPC) (hash : string) (w : world) :
  fst (AsimovGetTransactionReceipt rpc hash w) <> (None, None).
Proof.
  unfold AsimovGetTransactionReceipt.
  destruct (callVar decodeReceipt rpc "flow_getTransactionReceipt" zeroReceipt
              (variadic [str hash]) w) as [[t [e |]] w']; discriminate.
Qed.

End FacadeFacts.

(** ** One invocation of [Call] *)

Module CallFacts.
Import TransportFacts.

(** X1. [Call] closes the body of every response it is handed, and of no
    other: after the request it posts, the body is closed exactly when
    [client.Post] returned a response, be it with an error or without, and
    whatever the body turns out to hold. When the encoder refuses the
    parameters nothing is sent and nothing is closed. *)
Theorem Call_closes_every_response (rpc : AsimovRPC) (method : string)
    (params : slice param) (w : world) :
  match sliceValue params with
  | Err _ => wire (snd (Call rpc method params w)) = wire w
  | Ok v =>
      let p := postOf rpc (envelope method v) in
      wire (snd (Call rpc method params w))
        = (wire w ++ Posted p
             :: (if responded (Post (client rpc) (wire w) p)
                 then [BodyClosed] else []))%list
  end.
Proof.
  destruct (sliceValue params) as [v | e] eqn:Hv.
  - cbv zeta. unfold Call. rewrite (marshalRequest_ok _ _ _ Hv).
    fold (postOf rpc (envelope method v)).
    destruct (Post (client rpc) (wire w) (postOf rpc (envelope method v)))
      as [[|] msg | [data | msg]]; cbn [responded].
    + cbn. rewrite <- app_assoc. reflexivity.
    + reflexivity.
    + destruct (unmarshalResponse data) as [resp | err];
        [destruct (Error resp) |]; destruct (Debug rpc);
        cbn; rewrite <- app_assoc; reflexivity.
    + cbn. rewrite <- app_assoc. reflexivity.
  - rewrite (Call_refused _ _ _ _ _ Hv). reflexivity.
Qed.

(** X2. What [Call] prints: nothing unless [Debug] is set and the body of
    the response was read in full; then one line, holding the method, the
    request body and the response body, handed to the client's logger. A
    failed exchange, a body that broke off and refused parameters print
    nothing even under [Debug]; a body that does not decode is printed
    before the decoder rejects it. *)
Theorem Call_debug_output (rpc : AsimovRPC) (method : string)
    (params : slice param) (w : world) :
  printed (snd (Call rpc method params w))
    = match sliceValue params with
      | Err _ => printed w
      | Ok v =>
          match bodyOf (Post (client rpc) (wire w) (postOf rpc (envelope method v))) with
          | Some data =>
              if Debug rpc
              then Println (log rpc) (debugLine method (envelope method v) data)
                     (printed w)
              else printed w
          | None => printed w
          end
      end.
Proof.
  destruct (sliceValue params) as [v | e] eqn:Hv.
  - unfold Call. rewrite (marshalRequest_ok _ _ _ Hv).
    fold (postOf rpc (envelope method v)).
    destruct (Post (client rpc) (wire w) (postOf rpc (envelope method v)))
      as [[|] msg | [data | msg]]; cbn [bodyOf]; try reflexivity.
    destruct (unmarshalResponse data) as [resp | err];
      [destruct (Error resp) |]; destruct (Debug rpc); reflexivity.
  - rewrite (Call_refused _ _ _ _ _ Hv). reflexivity.
Qed.

(** X3. [Call] never returns a result next to an error: whenever the error
    is not nil the result is the nil [json.RawMessage]. *)
Theorem Call_value_or_error (rpc : AsimovRPC) (method : string)
    (params : slice param) (w : world) :
  snd (fst (Call rpc method params w)) = None
  \/ fst (fst (Call rpc method params w)) = EmptyString.
Proof.
  unfold Call.
  destruct (marshalRequest (mkRequest 1 "2.0" method params)) as [body | err];
    [| right; reflexivity].
  destruct (Post (client rpc) (wire w) (mkPost (url rpc) "application/json" body))
    as [[|] msg | [data | msg]]; try (right; reflexivity).
  destruct (unmarshalResponse data) as [resp | err]; [| right; reflexivity].
  destruct (Error resp); [right | left]; reflexivity.
Qed.

(** X4. [call] is [Call] followed by a decoding step that touches nothing
    but the target: it sends, closes and prints exactly what [Call] does;
    when [Call] fails, the target is left as it was and the error is
    [Call]'s; and with a nil target no decoding happens at all, so that
    the error is [Call]'s whatever the result holds. *)
Theorem call_adds_no_exchange {A : Type} (dec : decoder A) (rpc : AsimovRPC)
    (method : string) (target : option A) (params : slice param) (w : world) :
  snd (call dec rpc method target params w) = snd (Call rpc method params w)
  /\ (snd (fst (Call rpc method params w)) <> None ->
      fst (call dec rpc method target params w)
        = (target, snd (fst (Call rpc method params w))))
  /\ (target = None ->
      snd (fst (call dec rpc method target params w))
        = snd (fst (Call rpc method params w))).
Proof.
  unfold call. destruct (Call rpc method params w) as [[result [e |]] w'].
  - repeat split.
  - cbn [fst snd]. split; [| split].
    + destruct target as [v |]; [destruct (Unmarshal dec result v) |]; reflexivity.
    + intros H. contradiction.
    + intros ->. reflexivity.
Qed.

End CallFacts.

(** ** The operations of the facade *)

Module OperationFacts.
Import JsonFacts TransportFacts FacadeFacts.

Lemma parse_null : parse "null" = Ok JNull.
Proof. reflexivity. Qed.

Lemma Unmarshal_empty {A : Type} (dec : decoder A) (v : A) :
  Unmarshal dec EmptyString v
    = (v, Some (SyntaxError "unexpected end of JSON input")).
Proof. reflexivity. Qed.

Lemma skipSpace_quote (s : string) : skipSpace (quote s) = quote s.
Proof. reflexivity. Qed.

(** A plain string, quoted, reads as the JSON string it is, whatever
    follows it. *)
Lemma parseValue_quoted (f : nat) (d : Z) (s rest : string) :
  allPlain s = true ->
  parseValue (S f) d (quote s ++ rest) = Some (JString s, rest).
Proof.
  intros H. rewrite (quote_plain s H). cbn [append parseValue]. unfold valueStep.
  change ((dquote =? "{")%char) with false.
  change ((dquote =? "[")%char) with false.
  rewrite Ascii.eqb_refl. cbv iota.
  rewrite append_assoc. cbn [append].
  rewrite (scanString_plain s rest H). reflexivity.
Qed.

Lemma parse_quote_plain (s : string) :
  allPlain s = true -> parse (quote s) = Ok (JString s).
Proof.
  intros H. unfold parse. rewrite skipSpace_quote.
  rewrite (quote_plain s H).
  unfold parseFuel. rewrite Nat.add_comm. cbn [Nat.add parseValue].
  unfold valueStep.
  change ((dquote =? "{")%char) with false.
  change ((dquote =? "[")%char) with false.
  rewrite Ascii.eqb_refl. cbv iota.
  rewrite (scanString_plain s EmptyString H). reflexivity.
Qed.

Lemma joinWith_quoted_head (a : string) (l : list string) :
  exists tail, joinWith "," (map quote (a :: l)) = String dquote tail.
Proof.
  destruct l as [| b l]; cbn [map joinWith]; unfold quote; cbn [append];
    eexists; reflexivity.
Qed.

Lemma parseElements_S (f : nat) (d : Z) (s : string) :
  parseElements (S f) d s
    = elementsStep (parseValue f) (parseElements f) d s.
Proof. reflexivity. Qed.

(** The elements of an array of plain strings, read up to the bracket. *)
Lemma parseElements_quoted (l : list string) :
  forall (a : string) (f : nat) (d : Z) (rest : string),
    forallb allPlain (a :: l) = true ->
    (List.length l < f)%nat ->
    parseElements (S f) d (joinWith "," (map quote (a :: l)) ++ String "]" rest)
      = Some (map JString (a :: l), rest).
Proof.
  induction l as [| b l IH]; intros a f d rest Hp Hf;
    cbn [forallb] in Hp; apply andb_prop in Hp; destruct Hp as [Ha Hl];
    destruct f as [| f]; try lia; rewrite parseElements_S; unfold elementsStep.
  - cbn [map joinWith]. rewrite (parseValue_quoted f d a _ Ha).
    reflexivity.
  - change (joinWith "," (map quote (a :: b :: l)))
      with (quote a ++ "," ++ joinWith "," (map quote (b :: l))).
    rewrite append_assoc. rewrite (parseValue_quoted f d a _ Ha).
    cbn [append]. rewrite skipSpace_head by reflexivity.
    change (("," =? ",")%char) with true. cbv iota.
    destruct (joinWith_quoted_head b l) as [tail Et].
    assert (Sk : skipSpace (joinWith "," (map quote (b :: l)) ++ String "]" rest)
                 = joinWith "," (map quote (b :: l)) ++ String "]" rest).
    { rewrite Et. reflexivity. }
    rewrite Sk. cbn [List.length] in Hf.
    rewrite (IH b f d rest Hl) by lia. reflexivity.
Qed.

Lemma parse_arrayText (items : list string) :
  forallb allPlain items = true ->
  parse (arrayText items) = Ok (JArray (map JString items)).
Proof.
  intros Hp. unfold parse, arrayText. cbn [append].
  rewrite skipSpace_head by reflexivity.
  set (text := String "[" (joinWith "," (map quote items) ++ "]")).
  assert (P : parseValue (S (S (S (List.length items)))) 0 text
              = Some (JArray (map JString items), EmptyString)).
  { subst text. cbn [parseValue]. unfold valueStep.
    change (("[" =? "{")%char) with false. rewrite Ascii.eqb_refl. cbv iota.
    change (maxNestingDepth <? 0 + 1) with false. cbv iota.
    destruct items as [| a l]; [reflexivity |].
    destruct (joinWith_quoted_head a l) as [tail Et].
    assert (Sk : skipSpace (joinWith "," (map quote (a :: l)) ++ "]")
                 = joinWith "," (map quote (a :: l)) ++ "]").
    { rewrite Et. reflexivity. }
    rewrite Sk.
    rewrite (parseElements_quoted l a _ _ EmptyString Hp) by (cbn [List.length]; lia).
    rewrite Et. reflexivity. }
  rewrite (parseFuel_enough _ _ _ _ _ P). reflexivity.
Qed.




Lemma options_keep_url (options : list (AsimovRPC -> AsimovRPC)) :
  Forall exportedOption options ->
  forall rpc, url (fold_left (fun r option => option r) options rpc) = url rpc.
Proof.
  induction 1 as [| o options Ho _ IH]; intros rpc; [reflexivity |].
  cbn [fold_left]. rewrite IH. destruct Ho; reflexivity.
Qed.

Section Operations.

Context {T FilterParams : Type}.
Variable valueOfT : T -> value.
Variable valueOfFilterParams : FilterParams -> value.

(** X5. Every operation of the facade sends exactly one request, whatever
    its arguments are and whatever comes back: its parameters are always
    ones the encoder accepts, and the one POST carries the envelope of the
    operation's method and parameters to the client's URL. No operation
    sends a second request, not even the lookups that decode the result
    themselves. *)
Theorem operations_post_once (op : operation T FilterParams) (rpc : AsimovRPC)
    (w : world) :
  exists v,
    sliceValue (paramsOf valueOfT valueOfFilterParams op) = Ok v
    /\ posts (wire (snd (run valueOfT valueOfFilterParams op rpc w)))
       = (posts (wire w)
            ++ [postOf rpc (envelope (methodOf valueOfT valueOfFilterParams op) v)])%list.
Proof.
  destruct (facade_request_encodes valueOfT valueOfFilterParams op) as [v Hv].
  exists v. split; [exact Hv |].
  rewrite run_world.
  destruct (Call_events rpc (methodOf valueOfT valueOfFilterParams op)
              (paramsOf valueOfT valueOfFilterParams op) w v Hv)
    as (tail & E & [-> | ->]);
    unfold methodOf, paramsOf in *; rewrite E, posts_app; reflexivity.
Qed.

(** X6. A failure of the transport reaches the caller of every operation
    unchanged: when the POST fails, or the body of the response cannot be
    read to its end, the operation returns that very error next to the
    value it held before the call. *)
Theorem operations_surface_transport_errors (op : operation T FilterParams)
    (rpc : AsimovRPC) (w : world) (v : value) (msg : string) :
  sliceValue (paramsOf valueOfT valueOfFilterParams op) = Ok v ->
  exchangeError
    (Post (client rpc) (wire w)
       (postOf rpc (envelope (methodOf valueOfT valueOfFilterParams op) v)))
    = Some msg ->
  fst (run valueOfT valueOfFilterParams op rpc w)
    = (initialReply op, Some (TransportError msg)).
Proof.
  intros Hv Hx.
  apply (run_Call_failed valueOfT valueOfFilterParams op rpc w EmptyString).
  fold (methodOf valueOfT valueOfFilterParams op)
       (paramsOf valueOfT valueOfFilterParams op).
  rewrite (Call_returns _ _ _ _ _ Hv).
  destruct (Post (client rpc) (wire w)
              (postOf rpc (envelope (methodOf valueOfT valueOfFilterParams op) v)))
    as [b m | [data | m]]; cbn [exchangeError] in Hx;
    try discriminate Hx; injection Hx as ->; reflexivity.
Qed.

(** X7. A response whose body is not an envelope (not JSON at all, or JSON
    of the wrong shape) makes every operation return the decoder's error
    next to the value it held before the call. *)
Theorem operations_reject_undecodable_bodies (op : operation T FilterParams)
    (rpc : AsimovRPC) (w : world) (data : string) (e : error) :
  answers rpc w (methodOf valueOfT valueOfFilterParams op)
    (paramsOf valueOfT valueOfFilterParams op) data ->
  unmarshalResponse data = Err e ->
  fst (run valueOfT valueOfFilterParams op rpc w) = (initialReply op, Some e).
Proof.
  intros Ha Hu.
  apply (run_Call_failed valueOfT valueOfFilterParams op rpc w EmptyString).
  fold (methodOf valueOfT valueOfFilterParams op)
       (paramsOf valueOfT valueOfFilterParams op).
  rewrite (Call_answered _ _ _ _ _ Ha). unfold outcome. rewrite Hu. reflexivity.
Qed.

(** Brings the [Call] of an operation to the result it is known to
    return. *)
Ltac on_result H :=
  unfold methodOf, paramsOf in H; cbn [requestOf fst snd] in H;
  unfold_operation; resolve_call H; cbv beta iota zeta.

(** X8. An envelope with neither a result nor an error is an error for
    every operation: [Call] returns the nil result without an error, and
    each operation then fails on decoding it with the syntax error
    [unexpected end of JSON input]; none takes the missing result for an
    empty value, and the two literal comparisons ([null] in [getBlock],
    [false] in [AsimovSyncing]) do not match it. *)
Theorem operations_reject_missing_result (op : operation T FilterParams)
    (rpc : AsimovRPC) (w : world) :
  fst (Call rpc (methodOf valueOfT valueOfFilterParams op)
         (paramsOf valueOfT valueOfFilterParams op) w) = (EmptyString, None) ->
  snd (fst (run valueOfT valueOfFilterParams op rpc w))
    = Some (SyntaxError "unexpected end of JSON input").
Proof.
  intros H.
  destruct op; on_result H; try reflexivity;
    match goal with
    | |- context [if ?b then WithTransactions _ else _] => destruct b; reflexivity
    end.
Qed.

(** X9. The operations that return a string return the text the node
    sent: when the result is the JSON string of [s], a string that needs no
    escaping, the operation returns [s] itself and no error. *)
Theorem string_operations_return_text (op : operation T FilterParams)
    (rpc : AsimovRPC) (w : world) (s : string) :
  initialReply op = StringReply EmptyString ->
  allPlain s = true ->
  fst (Call rpc (methodOf valueOfT valueOfFilterParams op)
         (paramsOf valueOfT valueOfFilterParams op) w) = (quote s, None) ->
  fst (run valueOfT valueOfFilterParams op rpc w) = (StringReply s, None).
Proof.
  intros Hi Hs H.
  destruct op; try discriminate Hi; on_result H;
    unfold Unmarshal; rewrite (parse_quote_plain s Hs); reflexivity.
Qed.

(** X10. The operations that return a string report a result of another
    JSON type (a number, a boolean, an array, an object) as the type error
    of [json.Unmarshal] for the Go type [string], and return the empty
    string with it. *)
Theorem string_operations_report_mismatch (op : operation T FilterParams)
    (rpc : AsimovRPC) (w : world) (result : string) (v : json) :
  initialReply op = StringReply EmptyString ->
  fst (Call rpc (methodOf valueOfT valueOfFilterParams op)
         (paramsOf valueOfT valueOfFilterParams op) w) = (result, None) ->
  parse result = Ok v ->
  fitsString v = false ->
  fst (run valueOfT valueOfFilterParams op rpc w)
    = (StringReply EmptyString, Some (typeError v "string")).
Proof.
  intros Hi H Hp Hf.
  destruct op; try discriminate Hi; on_result H;
    unfold Unmarshal; rewrite Hp; destruct v; try discriminate Hf; reflexivity.
Qed.

(** X11. For the operations whose target is a string, a boolean or a
    slice, the result [null] is no error: the string stays empty, the
    boolean stays false, and the slice of strings or of logs, which the
    operation had made empty, comes back nil. *)
Theorem null_result_is_a_zero_value (op : operation T FilterParams)
    (rpc : AsimovRPC) (w : world) (r : reply) :
  nullReply op = Some r ->
  fst (Call rpc (methodOf valueOfT valueOfFilterParams op)
         (paramsOf valueOfT valueOfFilterParams op) w) = ("null", None) ->
  fst (run valueOfT valueOfFilterParams op rpc w) = (r, None).
Proof.
  intros Hn H.
  destruct op; cbn in Hn; try discriminate Hn; injection Hn as <-;
    on_result H; reflexivity.
Qed.

(** X12. The operations that return a number hand the text of the result
    to the numeric codec and return what it returns, value and error
    alike: [ParseInt] for those that return an [int], [ParseBigInt] for
    those that return a [big.Int]. Nothing is added to the codec's verdict
    and nothing of it is dropped. *)
Theorem number_operations_parse_text (op : operation T FilterParams)
    (rpc : AsimovRPC) (w : world) (s : string) :
  allPlain s = true ->
  fst (Call rpc (methodOf valueOfT valueOfFilterParams op)
         (paramsOf valueOfT valueOfFilterParams op) w) = (quote s, None) ->
  (initialReply op = IntReply 0 ->
   fst (run valueOfT valueOfFilterParams op rpc w)
     = let (i, err) := goPair 0 (Hex.ParseInt s) in (IntReply i, err))
  /\ (initialReply op = BigIntReply 0 ->
      fst (run valueOfT valueOfFilterParams op rpc w)
        = let (i, err) := goPair 0 (Hex.ParseBigInt s) in (BigIntReply i, err)).
Proof.
  intros Hs H.
  split; intros Hi; destruct op; try discriminate Hi; on_result H;
    unfold Unmarshal; rewrite (parse_quote_plain s Hs); cbn [decodeString fst snd];
    match goal with
    | |- context [goPair ?z ?r] => destruct (goPair z r)
    end; reflexivity.
Qed.

(** X13. The operations that return a list of strings return the list the
    node sent, in its order and at its length: when the result is the JSON
    array of the strings [items], none of which needs escaping, the
    operation returns exactly [items] and no error. *)
Theorem list_operations_return_items (op : operation T FilterParams)
    (rpc : AsimovRPC) (w : world) (items : list string) :
  initialReply op = StringsReply (Slice []) ->
  forallb allPlain items = true ->
  fst (Call rpc (methodOf valueOfT valueOfFilterParams op)
         (paramsOf valueOfT valueOfFilterParams op) w) = (arrayText items, None) ->
  fst (run valueOfT valueOfFilterParams op rpc w) = (StringsReply (Slice items), None).
Proof.
  intros Hi Hs H.
  destruct op; try discriminate Hi; on_result H;
    unfold Unmarshal; rewrite (parse_arrayText items Hs);
    unfold decodeStrings, decodeSlice;
    rewrite (decodeElements_strings items); reflexivity.
Qed.

(** X14. The operations that return a boolean return the boolean the node
    sent: the result [true] gives true and the result [false] gives false,
    without an error. *)
Theorem flag_operations_return_flag (op : operation T FilterParams)
    (rpc : AsimovRPC) (w : world) (b : bool) :
  initialReply op = BoolReply false ->
  fst (Call rpc (methodOf valueOfT valueOfFilterParams op)
         (paramsOf valueOfT valueOfFilterParams op) w)
    = (marshalValue (VBool b), None) ->
  fst (run valueOfT valueOfFilterParams op rpc w) = (BoolReply b, None).
Proof.
  intros Hi H.
  destruct op; try discriminate Hi; on_result H; destruct b; reflexivity.
Qed.

End Operations.

Lemma operations_surface_transport_errors_witness :
  fst (run (fun _ : unit => VNil) (fun _ : unit => VNil)
         (OpAsimovGetBalance unit unit "0x1f3a7e5c" "latest")
         (nodeBehind (truncating "unexpected EOF")) idle)
    = (BigIntReply 0, Some (TransportError "unexpected EOF")).
Proof.
  apply (operations_surface_transport_errors
           (fun _ : unit => VNil) (fun _ : unit => VNil)
           (OpAsimovGetBalance unit unit "0x1f3a7e5c" "latest")
           (nodeBehind (truncating "unexpected EOF")) idle
           (VSlice [VString "0x1f3a7e5c"; VString "latest"]) "unexpected EOF");
    reflexivity.
Defined.

Lemma operations_reject_undecodable_bodies_witness :
  exists msg,
    fst (run (fun _ : unit => VNil) (fun _ : unit => VNil)
           (OpAsimovGetFilterLogs unit unit "0x16")
           (node "<html>502 Bad Gateway</html>") idle)
      = (LogsReply (Slice []), Some (SyntaxError msg)).
Proof.
  eexists.
  apply (operations_reject_undecodable_bodies
           (fun _ : unit => VNil) (fun _ : unit => VNil)
           (OpAsimovGetFilterLogs unit unit "0x16")
           (node "<html>502 Bad Gateway</html>") idle
           (js "<html>502 Bad Gateway</html>")).
  - eexists. split; reflexivity.
  - vm_compute. reflexivity.
Defined.

Lemma operations_reject_missing_result_witness :
  snd (fst (run (fun _ : unit => VNil) (fun _ : unit => VNil)
              (OpAsimovGetBlockByNumber 7 false)
              (node "{'jsonrpc':'2.0','id':1}") idle))
    = Some (SyntaxError "unexpected end of JSON input").
Proof.
  apply (operations_reject_missing_result
           (fun _ : unit => VNil) (fun _ : unit => VNil)
           (OpAsimovGetBlockByNumber 7 false)
           (node "{'jsonrpc':'2.0','id':1}") idle).
  vm_compute. reflexivity.
Defined.

Lemma string_operations_return_text_witness :
  fst (run (fun _ : unit => VNil) (fun _ : unit => VNil) OpWeb3ClientVersion
         (node "{'jsonrpc':'2.0','id':1,'result':'Asimov/v1.0.2/linux'}") idle)
    = (StringReply "Asimov/v1.0.2/linux", None).
Proof.
  apply (string_operations_return_text
           (fun _ : unit => VNil) (fun _ : unit => VNil) OpWeb3ClientVersion
           (node "{'jsonrpc':'2.0','id':1,'result':'Asimov/v1.0.2/linux'}") idle
           "Asimov/v1.0.2/linux").
  - reflexivity.
  - reflexivity.
  - vm_compute. reflexivity.
Defined.

Lemma string_operations_report_mismatch_witness :
  fst (run (fun _ : unit => VNil) (fun _ : unit => VNil)
         (OpAsimovCoinbase unit unit)
         (node "{'jsonrpc':'2.0','id':1,'result':5}") idle)
    = (StringReply EmptyString,
       Some (UnmarshalTypeError
               "json: cannot unmarshal number into Go value of type string")).
Proof.
  apply (string_operations_report_mismatch
           (fun _ : unit => VNil) (fun _ : unit => VNil)
           (OpAsimovCoinbase unit unit)
           (node "{'jsonrpc':'2.0','id':1,'result':5}") idle "5" (JNumber "5")).
  - reflexivity.
  - vm_compute. reflexivity.
  - reflexivity.
  - reflexivity.
Defined.

Lemma null_result_is_a_zero_value_witness :
  fst (run (fun _ : unit => VNil) (fun _ : unit => VNil)
         (OpAsimovAccounts unit unit)
         (node "{'jsonrpc':'2.0','id':1,'result':null}") idle)
    = (StringsReply NilSlice, None).
Proof.
  apply (null_result_is_a_zero_value
           (fun _ : unit => VNil) (fun _ : unit => VNil)
           (OpAsimovAccounts unit unit)
           (node "{'jsonrpc':'2.0','id':1,'result':null}") idle).
  - reflexivity.
  - vm_compute. reflexivity.
Defined.

Lemma number_operations_parse_text_witness :
  fst (run (fun _ : unit => VNil) (fun _ : unit => VNil)
         (OpAsimovBlockNumber unit unit)
         (node "{'jsonrpc':'2.0','id':1,'result':'0x4b7'}") idle)
    = (IntReply 1207, None).
Proof.
  assert (Hs : allPlain "0x4b7" = true) by reflexivity.
  assert (H : fst (Call (node "{'jsonrpc':'2.0','id':1,'result':'0x4b7'}")
                     (methodOf (fun _ : unit => VNil) (fun _ : unit => VNil)
                        (OpAsimovBlockNumber unit unit))
                     (paramsOf (fun _ : unit => VNil) (fun _ : unit => VNil)
                        (OpAsimovBlockNumber unit unit)) idle)
              = (quote "0x4b7", None)) by (vm_compute; reflexivity).
  exact (proj1 (number_operations_parse_text
                  (fun _ : unit => VNil) (fun _ : unit => VNil)
                  (OpAsimovBlockNumber unit unit)
                  (node "{'jsonrpc':'2.0','id':1,'result':'0x4b7'}") idle
                  "0x4b7" Hs H) eq_refl).
Defined.

Lemma list_operations_return_items_witness :
  fst (run (fun _ : unit => VNil) (fun _ : unit => VNil)
         (OpAsimovAccounts unit unit)
         (node "{'jsonrpc':'2.0','id':1,'result':['0x407d73d8','0x0a6c6d5f']}") idle)
    = (StringsReply (Slice ["0x407d73d8"; "0x0a6c6d5f"]), None).
Proof.
  apply (list_operations_return_items
           (fun _ : unit => VNil) (fun _ : unit => VNil)
           (OpAsimovAccounts unit unit)
           (node "{'jsonrpc':'2.0','id':1,'result':['0x407d73d8','0x0a6c6d5f']}") idle
           ["0x407d73d8"; "0x0a6c6d5f"]).
  - reflexivity.
  - reflexivity.
  - vm_compute. reflexivity.
Defined.

Lemma flag_operations_return_flag_witness :
  fst (run (fun _ : unit => VNil) (fun _ : unit => VNil)
         (OpNetListening unit unit)
         (node "{'jsonrpc':'2.0','id':1,'result':true}") idle)
    = (BoolReply true, None).
Proof.
  apply (flag_operations_return_flag
           (fun _ : unit => VNil) (fun _ : unit => VNil)
           (OpNetListening unit unit)
           (node "{'jsonrpc':'2.0','id':1,'result':true}") idle true).
  - reflexivity.
  - vm_compute. reflexivity.
Defined.

(** X15. A block lookup never returns a block next to an error: whatever
    the response is, [getBlock] returns a nil block or a nil error. A
    block that failed to decode is dropped, not handed out half filled. *)
Theorem block_lookup_block_or_error (rpc : AsimovRPC) (method : string)
    (withTransactions : bool) (params : slice param) (w : world) :
  fst (fst (getBlock rpc method withTransactions params w)) = None
  \/ snd (fst (getBlock rpc method withTransactions params w)) = None.
Proof.
  unfold getBlock, RawCall.
  destruct (Call rpc method params w) as [[result [e |]] w']; [left; reflexivity |].
  destruct (bytesEqual result "null"); [left; reflexivity |]. cbv zeta.
  destruct (unmarshalProxyBlock result
              (if withTransactions
               then WithTransactions (zeroBlock NilSlice)
               else WithoutTransactions (zeroBlock NilSlice))) as [p [e |]];
    [left | right]; reflexivity.
Qed.

(** X16. [AsimovGetTransactionReceipt] returns either a receipt and no
    error, or an error and no receipt, whatever the response is: unlike
    [getTransaction] it drops the record when the call fails. *)
Theorem receipt_lookup_receipt_or_error (rpc : AsimovRPC) (hash : string)
    (w : world) :
  (exists r, fst (AsimovGetTransactionReceipt rpc hash w) = (Some r, None))
  \/ (exists e, fst (AsimovGetTransactionReceipt rpc hash w) = (None, Some e)).
Proof.
  unfold AsimovGetTransactionReceipt.
  destruct (callVar decodeReceipt rpc "flow_getTransactionReceipt" zeroReceipt
              (variadic [str hash]) w) as [[r [e |]] w'].
  - right. exists e. reflexivity.
  - left. exists r. reflexivity.
Qed.

(** X17. [AsimovSyncing] returns the nil status exactly when the exchange
    itself failed. Once [Call] has returned a result the status is never
    nil: a result that does not decode comes back as a status next to the
    decoder's error. *)
Theorem syncing_status_absent_iff_Call_failed (rpc : AsimovRPC) (w : world) :
  fst (fst (AsimovSyncing rpc w)) = None
  <-> snd (fst (Call rpc "flow_syncing" (variadic []) w)) <> None.
Proof.
  unfold AsimovSyncing, RawCall.
  destruct (Call rpc "flow_syncing" (variadic []) w) as [[result [e |]] w'].
  - cbn. split; [discriminate | reflexivity].
  - cbv zeta. destruct (bytesEqual result "false").
    + cbn. split; [discriminate | intros H; contradiction].
    + destruct (Unmarshal decodeSyncing result zeroSyncing) as [s err]. cbn.
      split; [discriminate | intros H; contradiction].
Qed.


(** X19. [New] applies the options in the order given, each to the client
    the ones before it left: whatever exported options come first, the
    last [WithHttpClient], [WithLogger] or [WithDebug] is the one in
    effect, and no exported option touches the address, which [URL]
    returns as it was passed to [New]. *)
Theorem New_applies_options (DefaultClient : httpClient) (stderrLogger : logger)
    (address : string) (options : list (AsimovRPC -> AsimovRPC)) :
  Forall exportedOption options ->
  URL (New DefaultClient stderrLogger address options) = address
  /\ (forall c, client (New DefaultClient stderrLogger address
                         (options ++ [WithHttpClient c])) = c)
  /\ (forall l, log (New DefaultClient stderrLogger address
                       (options ++ [WithLogger l])) = l)
  /\ (forall enabled, Debug (New DefaultClient stderrLogger address
                               (options ++ [WithDebug enabled])) = enabled).
Proof.
  intros H. unfold URL, New. split; [| repeat split].
  - rewrite (options_keep_url options H). reflexivity.
  - intros c. rewrite fold_left_app. reflexivity.
  - intros l. rewrite fold_left_app. reflexivity.
  - intros enabled. rewrite fold_left_app. reflexivity.
Qed.

Lemma New_applies_options_witness :
  URL (New (respondWith "{}") lineLogger "http://10.0.0.7:8545"
         [WithDebug true; WithHttpClient (unreachable "no route to host");
          WithDebug false])
    = "http://10.0.0.7:8545".
Proof.
  apply (New_applies_options (respondWith "{}") lineLogger "http://10.0.0.7:8545"
           [WithDebug true; WithHttpClient (unreachable "no route to host");
            WithDebug false]).
  repeat constructor.
Defined.

End OperationFacts.
